(** * Phantom Engaged document kernel: layout, page templates and page merge

    A shallow embedding of the layout and merge code of the repository:

    - [generate_phantom_engaged.py]  (module [PhantomEngaged])
    - [generate_whitepaper_full.py]  (module [WhitepaperFull])
    - [generate_whitepaper_proof.py] (module [WhitepaperProof])
    - [insert_callouts.py]           (module [InsertCallouts])

    Conventions.  Python floats are idealised as canonical rationals [Qc]
    (so [inch * 0.85] is exactly 61.2); rounding is outside the model.
    Python [str] is [string].  ReportLab and pypdf are external: the
    paragraph wrapper is a parameter of the sections that use it, canvas
    calls are recorded as a list of events, and a PDF file is the list of
    its pages. *)

From Stdlib Require Import QArith Qcanon Qround Ascii Lqa.
From stdpp Require Import base numbers list strings gmap pretty.

Local Open Scope Qc_scope.

(** ** Numbers *)

Definition num (n : Z) : Qc := Q2Qc (inject_Z n).
Definition dec (n : Z) (d : positive) : Qc := Q2Qc (n # d).

(** [reportlab.lib.units.inch] and [reportlab.lib.pagesizes.letter]. *)
Definition inch : Qc := num 72.
Definition W : Qc := num 612.
Definition H : Qc := num 792.

(** Closes equalities of the rational field over [num] and [dec] literals. *)
Ltac qc_arith :=
  apply Qc_is_canon;
  unfold inch, W, H, dec, num;
  unfold Qcminus, Qcdiv, Qcplus, Qcmult, Qcopp, Qcinv, Q2Qc; cbn [this];
  rewrite ?Qred_correct; try field; try reflexivity.

(** ** Strings *)

Definition dquote : ascii := Ascii.ascii_of_nat 34.
Definition str1 (c : ascii) : string := String c EmptyString.
Definition nl : string := str1 (Ascii.ascii_of_nat 10).

(** ** Styles, paragraphs and canvas events *)

Record ParagraphStyle := {
  style_name : string;
  fontName   : string;
  fontSize   : Qc;
  leading    : Qc;
  textColor  : string;
  alignment  : Z;
  spaceBefore : Qc;
  spaceAfter  : Qc;
  leftIndent  : Qc;
  bulletIndent : Qc;
}.

(** [reportlab.lib.enums]. *)
Definition TA_LEFT : Z := 0.
Definition TA_JUSTIFY : Z := 4.

Record Paragraph := {
  para_text  : string;
  para_style : ParagraphStyle;
}.

(** An element of the list handed to a callout: [(text, style)] or a bare
    [text] that takes the callout's default style. *)
Inductive TextItem :=
| Styled (text : string) (style : ParagraphStyle)
| Plain  (text : string).

(** ** Drawing shapes ([reportlab.graphics.shapes])

    Keyword arguments that a call leaves out take ReportLab's defaults
    ([rx = ry = 0], [textAnchor = start], no dash array). *)
Inductive Shape :=
| SRect (x y w h rx ry : Qc) (fillColor strokeColor : option string)
        (strokeWidth : Qc)
| SLine (x1 y1 x2 y2 : Qc) (strokeColor : string) (strokeWidth : Qc)
        (strokeDashArray : list Qc)
| SString (x y : Qc) (text fontName : string) (fontSize : Qc)
          (fillColor textAnchor : string).

(** The horizontal position a shape starts at. *)
Definition shape_x (s : Shape) : Qc :=
  match s with
  | SRect x _ _ _ _ _ _ _ _ => x
  | SLine x1 _ _ _ _ _ _ => x1
  | SString x _ _ _ _ _ _ => x
  end.

(** [Drawing(width, height)] with the shapes added to it, in order. *)
Record Drawing := {
  dr_width : Qc;
  dr_height : Qc;
  dr_shapes : list Shape;
}.

(** What a flowable does to the outside world, in call order.  [WrapCall] is a
    call of [Paragraph.wrap(availWidth, availHeight)], [RenderDrawing] is
    [renderPDF.draw(drawing, canvas, x, y)]; the others are canvas calls. *)
Inductive Event :=
| WrapCall (p : Paragraph) (aw ah : Qc)
| DrawOn (p : Paragraph) (x y : Qc)
| SaveState
| RestoreState
| SetFont (name : string) (size : Qc)
| SetFillColor (c : string)
| SetStrokeColor (c : string)
| SetLineWidth (w : Qc)
| RoundRect (x y w h r : Qc)
| Rect (x y w h : Qc)
| Line (x1 y1 x2 y2 : Qc)
| DrawString (x y : Qc) (s : string)
| DrawRightString (x y : Qc) (s : string)
| RenderDrawing (d : Drawing) (x y : Qc).

Definition is_wrap (e : Event) : bool :=
  match e with WrapCall _ _ _ => true | _ => false end.

Definition wrap_calls (evs : list Event) : list Event := List.filter is_wrap evs.

(** The signature of [Paragraph.wrap]: paragraph, available width and height
    to the wrapped [(width, height)]. *)
Definition Wrapper := Paragraph -> Qc -> Qc -> Qc * Qc.

(** A concrete wrapper for closed examples: fixed-pitch glyphs half a font
    size wide, broken into lines of the available width. *)
Definition sample_wrap : Wrapper := fun p aw _ =>
  let chars := Z.of_nat (String.length (para_text p)) in
  let text_w := num chars * fontSize (para_style p) / num 2 in
  let lines := Z.max 1 (Qceiling (this (text_w / aw))) in
  (aw, num lines * leading (para_style p)).

(** ** CalloutBox

    [class CalloutBox(Flowable)] of [generate_phantom_engaged.py] and of
    [insert_callouts.py].  The two classes have the same body; they differ in
    their keyword defaults, which the wrappers in the modules below supply. *)

Record CalloutBox := {
  bg : string;
  border_color : string;
  padding : Qc;
  bar_w : Qc;
  avail_width : Qc;
  paras : list Paragraph;
  inner_w : Qc;
  box_h : Qc;
  width : Qc;
  height : Qc;
}.

Definition make_para (style : ParagraphStyle) (t : TextItem) : Paragraph :=
  match t with
  | Styled text st => {| para_text := text; para_style := st |}
  | Plain text => {| para_text := text; para_style := style |}
  end.

Section Callout.
Variable wrap : Wrapper.

(** The measuring loop of [__init__]:
    [for para in self.paras: _, ph = para.wrap(inner_w, 10000); total_h += ph + 4]. *)
Definition measure_step (iw : Qc) (acc : Qc * list Event) (p : Paragraph)
  : Qc * list Event :=
  let ph := snd (wrap p iw (num 10000)) in
  (fst acc + (ph + num 4), snd acc ++ [WrapCall p iw (num 10000)]).

Definition measure_loop (iw : Qc) (ps : list Paragraph) : Qc * list Event :=
  foldl (measure_step iw) (num 0, []) ps.

(** [CalloutBox.__init__]: the box and the wrap calls made while building it. *)
Definition CalloutBox_init (text_paragraphs : list TextItem) (avail_w : Qc)
    (bg0 border0 : string) (padding0 : Qc) (style : ParagraphStyle)
  : CalloutBox * list Event :=
  let bar := num 4 in
  let ps := map (make_para style) text_paragraphs in
  let iw := avail_w - bar - padding0 * num 2 in
  let m := measure_loop iw ps in
  let bh := fst m + padding0 * num 2 - num 4 in
  ({| bg := bg0; border_color := border0; padding := padding0; bar_w := bar;
      avail_width := avail_w; paras := ps; inner_w := iw; box_h := bh;
      width := avail_w; height := bh + num 8 |},
   snd m).

(** The loop of [draw]:
    [_, ph = para.wrap(self.inner_w, 10000); para.drawOn(c, x, y - ph); y -= ph + 4]. *)
Definition draw_step (iw x : Qc) (acc : Qc * list Event) (p : Paragraph)
  : Qc * list Event :=
  let ph := snd (wrap p iw (num 10000)) in
  (fst acc - (ph + num 4),
   snd acc ++ [WrapCall p iw (num 10000); DrawOn p x (fst acc - ph)]).

Definition draw_loop (iw x y : Qc) (ps : list Paragraph) : Qc * list Event :=
  foldl (draw_step iw x) (y, []) ps.

Definition y_base : Qc := num 4.

(** [CalloutBox.draw]: the final value of the cursor [y] and the events. *)
Definition CalloutBox_draw_run (b : CalloutBox) : Qc * list Event :=
  let x := bar_w b + padding b in
  let y := y_base + box_h b - padding b in
  let r := draw_loop (inner_w b) x y (paras b) in
  (fst r,
   [SetFillColor (bg b);
    RoundRect (num 0) y_base (avail_width b) (box_h b) (num 2);
    SetFillColor (border_color b);
    Rect (num 0) y_base (bar_w b) (box_h b)] ++ snd r).

Definition CalloutBox_draw (b : CalloutBox) : list Event :=
  snd (CalloutBox_draw_run b).

(** The sum in the height formula of the specification:
    Σ (wrapped_height(block, inner_width) + inter_block_gap), gap = 4. *)
Definition sum_wrapped (iw : Qc) (ps : list Paragraph) : Qc :=
  foldr (fun p acc => (snd (wrap p iw (num 10000)) + num 4) + acc) (num 0) ps.

(** The lower edges at which [draw] places the paragraphs. *)
Definition drawn_at (evs : list Event) : list Qc :=
  omap (fun e => match e with DrawOn _ _ y => Some y | _ => None end) evs.
End Callout.


(** ** Flowables and stories *)

Record OverlapDiagram := {
  od_width : Qc;
  od_height : Qc;
}.

Inductive Flowable :=
| FSpacer (w h : Qc)
| FPageBreak
| FNextPageTemplate (id : string)
| FParagraph (p : Paragraph)
| FTealRule (w : Qc)
| FCallout (b : CalloutBox)
| FOverlapDiagram (d : OverlapDiagram)
| FTable (data : list (list Paragraph)) (colWidths : list Qc) (repeatRows : nat).

(** An entry of a story: one flowable, or a [KeepTogether] group.  The
    generators never nest one group in another. *)
Inductive StoryItem :=
| One (f : Flowable)
| KeepTogether (fs : list Flowable).

Definition Para (text : string) (style : ParagraphStyle) : Paragraph :=
  {| para_text := text; para_style := style |}.

Definition is_marker (f : Flowable) : bool :=
  match f with FNextPageTemplate _ => true | _ => false end.

Definition item_flowables (it : StoryItem) : list Flowable :=
  match it with One f => [f] | KeepTogether fs => fs end.

(** The template-switch markers of a story, in stream order. *)
Definition markers (story : list StoryItem) : list Flowable :=
  List.filter is_marker (concat (map item_flowables story)).

(** ** Frames and page templates *)

Record Frame := {
  fr_x : Qc;
  fr_y : Qc;
  fr_width : Qc;
  fr_height : Qc;
  fr_id : string;
  leftPadding : Qc;
  bottomPadding : Qc;
  rightPadding : Qc;
  topPadding : Qc;
}.

(** [Frame(x, y, w, h, id=...)]: the paddings default to 6. *)
Definition Frame_default (x y w h : Qc) (id : string) : Frame :=
  {| fr_x := x; fr_y := y; fr_width := w; fr_height := h; fr_id := id;
     leftPadding := num 6; bottomPadding := num 6;
     rightPadding := num 6; topPadding := num 6 |}.

(** [PageTemplate(id=..., frames=..., onPage=...)]; [onPage(canvas, doc)]
    reads the page counter [doc.page] and paints the chrome. *)
Record PageTemplate := {
  pt_id : string;
  pt_frame : Frame;
  onPage : Z -> list Event;
}.

(** ** Error monad for builds and merges *)

Inductive result (E A : Type) :=
| Ok (a : A)
| Err (e : E).
Arguments Ok {E A} a.
Arguments Err {E A} e.

Definition rbind {E A B} (r : result E A) (k : A -> result E B) : result E B :=
  match r with Ok a => k a | Err e => Err e end.

Notation "'let*' x ':=' r 'in' k" := (rbind r (fun x => k))
  (at level 10, x name, r at level 100, k at level 200).

(** Threads an accumulator through a list, stopping at the first error. *)
Fixpoint foldM {E A B} (f : A -> B -> result E A) (a : A) (l : list B)
  : result E A :=
  match l with
  | [] => Ok a
  | b :: l' => let* a' := f a b in foldM f a' l'
  end.

(** ** The page engine

    ReportLab's [BaseDocTemplate.build] is not part of the repository.  The
    engine below follows sections 4.3 and 4.4 of the specification. *)

(** Modelled from the spec: a finished page, section 4.3: its counter, the
    template that rendered it with its frame and chrome, and what was
    stacked on it. *)
Record PageRecord := {
  pr_number : Z;
  pr_template : string;
  pr_frame : Frame;
  pr_chrome : list Event;
  pr_flowables : list Flowable;
}.

(** Modelled from the spec: the state of a build, sections 4.3 and 4.4: the
    1-based page counter, the current template, the template asked for the
    following pages, the height used in the frame and what is on the page. *)
Record Engine := {
  page : Z;
  template : PageTemplate;
  pending : option PageTemplate;
  used : Qc;
  on_page : list Flowable;
  finished : list PageRecord;
}.

Inductive BuildError :=
| NoPageTemplates
| UnknownTemplate (id : string).

Section PageEngine.
Variable wrap : Wrapper.
Variable table_height : list (list Paragraph) -> list Qc -> Qc.

(** Modelled from the spec: [measure(width)] of each flowable, section 4.1.
    A spacer, a rule, a callout and a diagram report the height they were
    built with; a paragraph is wrapped at the frame width; markers and page
    breaks take no room. *)
Definition flow_height (frame_w : Qc) (f : Flowable) : Qc :=
  match f with
  | FSpacer _ h => h
  | FPageBreak => num 0
  | FNextPageTemplate _ => num 0
  | FParagraph p => snd (wrap p frame_w (num 10000))
  | FTealRule _ => num 4
  | FCallout b => height b
  | FOverlapDiagram d => od_height d
  | FTable data cols _ => table_height data cols
  end.

(** Modelled from the spec: the room of a frame inside its paddings,
    section 3. *)
Definition frame_avail_height (t : PageTemplate) : Qc :=
  fr_height (pt_frame t) - topPadding (pt_frame t) - bottomPadding (pt_frame t).

Definition frame_avail_width (t : PageTemplate) : Qc :=
  fr_width (pt_frame t) - leftPadding (pt_frame t) - rightPadding (pt_frame t).

(** Modelled from the spec: the template the next page takes, section 4.3:
    the one a switch marker asked for, else the current one. *)
Definition next_template (e : Engine) : PageTemplate :=
  default (template e) (pending e).

(** Modelled from the spec: closing a page, sections 4.3 and 4.4.  The page
    is emitted with the chrome of the current template at the current
    counter; the counter advances and a pending switch takes effect. *)
Definition end_page (e : Engine) : Engine :=
  {| page := (page e + 1)%Z;
     template := next_template e;
     pending := None;
     used := num 0;
     on_page := [];
     finished := finished e ++
       [{| pr_number := page e;
           pr_template := pt_id (template e);
           pr_frame := pt_frame (template e);
           pr_chrome := onPage (template e) (page e);
           pr_flowables := on_page e |}] |}.

(** Modelled from the spec: stacking one flowable of height [h] on the
    current page, section 4.4. *)
Definition add_flowable (h : Qc) (f : Flowable) (e : Engine) : Engine :=
  {| page := page e; template := template e; pending := pending e;
     used := used e + h; on_page := on_page e ++ [f];
     finished := finished e |}.

(** Modelled from the spec: per-flowable placement, section 4.4.  A flowable
    that does not fit the remaining space starts a fresh page; one that is
    taller than an empty frame is placed on it all the same. *)
Definition place (f : Flowable) (e : Engine) : Engine :=
  let h := flow_height (frame_avail_width (template e)) f in
  if bool_decide (used e + h ≤ frame_avail_height (template e)) then
    add_flowable h f e
  else
    match on_page e with
    | [] => add_flowable h f e
    | _ :: _ =>
        let e' := end_page e in
        add_flowable (flow_height (frame_avail_width (template e')) f) f e'
    end.

(** Modelled from the spec: the template a switch marker names, section
    4.3. *)
Definition find_template (tpls : list PageTemplate) (id : string)
  : option PageTemplate :=
  List.find (fun t => String.eqb (pt_id t) id) tpls.

(** Modelled from the spec: one flowable of the stream, sections 4.3 and 4.4.
    A page break closes the page whatever room is left; a switch marker only
    records the template of the following pages. *)
Definition step (tpls : list PageTemplate) (e : Engine) (f : Flowable)
  : result BuildError Engine :=
  match f with
  | FPageBreak => Ok (end_page e)
  | FNextPageTemplate id =>
      match find_template tpls id with
      | Some t =>
          Ok {| page := page e; template := template e; pending := Some t;
                used := used e; on_page := on_page e; finished := finished e |}
      | None => Err (UnknownTemplate id)
      end
  | _ => Ok (place f e)
  end.

(** Modelled from the spec: the total measured height of a group, section
    4.4. *)
Definition group_height (frame_w : Qc) (fs : list Flowable) : Qc :=
  foldr (fun f acc => flow_height frame_w f + acc) (num 0) fs.

(** Modelled from the spec: the keep-together rule, section 4.4.  A group
    that fits the remaining space is placed; else, if it fits a fresh frame,
    the page is broken first; else it degrades to per-flowable placement. *)
Definition step_item (tpls : list PageTemplate) (e : Engine) (it : StoryItem)
  : result BuildError Engine :=
  match it with
  | One f => step tpls e f
  | KeepTogether fs =>
      let e' :=
        if bool_decide (used e + group_height (frame_avail_width (template e)) fs
                        ≤ frame_avail_height (template e)) then e
        else if bool_decide
                  (group_height (frame_avail_width (next_template e)) fs
                   ≤ frame_avail_height (next_template e)) then end_page e
        else e in
      foldM (step tpls) e' fs
  end.

(** Modelled from the spec: the state before the first flowable, section
    4.3: page counter 1 on the initial template. *)
Definition engine_start (t0 : PageTemplate) : Engine :=
  {| page := 1%Z; template := t0; pending := None; used := num 0;
     on_page := []; finished := [] |}.

(** Modelled from the spec: a whole build, section 4.3.  The first
    registered template is the initial state; the last page is closed when
    the stream runs out. *)
Definition engine_build (tpls : list PageTemplate) (story : list StoryItem)
  : result BuildError (list PageRecord) :=
  match tpls with
  | [] => Err NoPageTemplates
  | t0 :: _ =>
      let* e := foldM (step_item tpls) (engine_start t0) story in
      Ok (finished (end_page e))
  end.
End PageEngine.


(** * generate_phantom_engaged.py *)
Module PhantomEngaged.

Definition VERSION : string := "4.0".
Definition DATE : string := "February 2026".
Definition OUTPUT : string := "Phantom_Engaged_v5.pdf".

(** Colour palette; a colour is the text handed to [HexColor]. *)
Definition COVER_BG : string := "#2D3E4D".
Definition TEAL : string := "#3B9B8F".
Definition DARK_TEXT : string := "#2C3E50".
Definition MID_TEXT : string := "#556677".
Definition LIGHT_TEXT : string := "#8899A6".
Definition CALLOUT_BG : string := "#F0F5F5".
Definition TABLE_HDR : string := "#2D3E4D".
Definition TABLE_ALT : string := "#F7FAFA".
Definition LINK_COLOR : string := "#3B9B8F".
Definition white : string := "white".

(** Paragraph styles.  A style built with [parent=] takes from the parent
    every field it does not set. *)
Definition sNormal : ParagraphStyle :=
  {| style_name := "sNormal"; fontName := "Helvetica"; fontSize := dec 105 10;
     leading := num 15; textColor := DARK_TEXT; alignment := TA_JUSTIFY;
     spaceBefore := num 0; spaceAfter := num 8;
     leftIndent := num 0; bulletIndent := num 0 |}.

Definition sH1 : ParagraphStyle :=
  {| style_name := "sH1"; fontName := "Helvetica-Bold"; fontSize := num 22;
     leading := num 27; textColor := DARK_TEXT; alignment := TA_LEFT;
     spaceBefore := num 18; spaceAfter := num 4;
     leftIndent := num 0; bulletIndent := num 0 |}.

Definition sH2 : ParagraphStyle :=
  {| style_name := "sH2"; fontName := "Helvetica-Bold"; fontSize := num 14;
     leading := num 18; textColor := DARK_TEXT; alignment := TA_LEFT;
     spaceBefore := num 14; spaceAfter := num 6;
     leftIndent := num 0; bulletIndent := num 0 |}.

Definition sH3 : ParagraphStyle :=
  {| style_name := "sH3"; fontName := "Helvetica-Bold"; fontSize := num 12;
     leading := num 16; textColor := TEAL; alignment := TA_LEFT;
     spaceBefore := num 10; spaceAfter := num 4;
     leftIndent := num 0; bulletIndent := num 0 |}.

Definition sBullet : ParagraphStyle :=
  {| style_name := "sBullet"; fontName := fontName sNormal;
     fontSize := fontSize sNormal; leading := leading sNormal;
     textColor := textColor sNormal; alignment := alignment sNormal;
     spaceBefore := num 4; spaceAfter := num 4;
     leftIndent := num 20; bulletIndent := num 8 |}.

Definition sRef : ParagraphStyle :=
  {| style_name := "sRef"; fontName := "Helvetica"; fontSize := dec 85 10;
     leading := num 12; textColor := MID_TEXT; alignment := TA_LEFT;
     spaceBefore := num 0; spaceAfter := num 3;
     leftIndent := num 0; bulletIndent := num 0 |}.

Definition sCalloutItalic : ParagraphStyle :=
  {| style_name := "sCalloutItalic"; fontName := "Helvetica-Oblique";
     fontSize := dec 105 10; leading := num 15; textColor := MID_TEXT;
     alignment := TA_LEFT; spaceBefore := num 0; spaceAfter := num 0;
     leftIndent := num 0; bulletIndent := num 0 |}.

Definition sCalloutNormal : ParagraphStyle :=
  {| style_name := "sCalloutNormal"; fontName := "Helvetica";
     fontSize := dec 105 10; leading := num 15; textColor := DARK_TEXT;
     alignment := TA_LEFT; spaceBefore := num 0; spaceAfter := num 0;
     leftIndent := num 0; bulletIndent := num 0 |}.

Definition sTableCell : ParagraphStyle :=
  {| style_name := "sTableCell"; fontName := "Helvetica"; fontSize := dec 95 10;
     leading := num 13; textColor := DARK_TEXT; alignment := TA_LEFT;
     spaceBefore := num 0; spaceAfter := num 0;
     leftIndent := num 0; bulletIndent := num 0 |}.

Definition sTableHdr : ParagraphStyle :=
  {| style_name := "sTableHdr"; fontName := "Helvetica-Bold";
     fontSize := dec 95 10; leading := num 13; textColor := white;
     alignment := TA_LEFT; spaceBefore := num 0; spaceAfter := num 0;
     leftIndent := num 0; bulletIndent := num 0 |}.

Definition sTableBoldCell : ParagraphStyle :=
  {| style_name := "sTableBoldCell"; fontName := "Helvetica-Bold";
     fontSize := dec 95 10; leading := num 13; textColor := DARK_TEXT;
     alignment := TA_LEFT; spaceBefore := num 0; spaceAfter := num 0;
     leftIndent := num 0; bulletIndent := num 0 |}.

(** [OverlapDiagram.__init__]. *)
Definition OverlapDiagram_init (avail_width : Qc) : OverlapDiagram :=
  {| od_width := avail_width; od_height := num 120 |}.

(** [OverlapDiagram.draw]: the drawing of size [self.width] by
    [self.height], the shapes added to it, and its rendering at the origin
    of the flowable. *)
Definition OverlapDiagram_draw (self : OverlapDiagram) : list Event :=
  let w := od_width self in
  let h := od_height self in
  let cx := w / num 2 in
  let box_w := w * dec 82 100 in
  let box_h := num 38 in
  let box_x := cx - box_w / num 2 in
  let box_y := num 28 in
  let r := num 4 in
  let dash_x := box_x + box_w * dec 72 100 in
  let lw := dec 12 10 in
  let d := {| dr_width := w; dr_height := h; dr_shapes :=
  [ SRect box_x box_y box_w box_h r r (Some "#D0EDEA") None (num 0);
    SRect dash_x (box_y + lw / num 2) ((box_x + box_w - r) - dash_x) (box_h - lw)
          (num 0) (num 0) (Some white) None (num 0);
    SRect box_x box_y box_w box_h r r None (Some TEAL) lw;
    SLine dash_x box_y dash_x (box_y + box_h) LIGHT_TEXT (num 1) [num 4; num 3];
    SString (box_x + num 20) (box_y + box_h / num 2 - num 3) "ENGAGED"
            "Helvetica-Bold" (num 10) DARK_TEXT "start";
    SString (box_x + box_w - num 20) (box_y + box_h / num 2 - num 3) "UNENGAGED"
            "Helvetica-Bold" (num 10) DARK_TEXT "end";
    SString cx (box_y + box_h + num 18) "PHANTOM ENGAGED"
            "Helvetica-Bold" (num 9) TEAL "middle";
    SLine cx (box_y + box_h + num 16) cx (box_y + box_h + num 2)
          DARK_TEXT (dec 8 10) [];
    SString cx (box_y - num 8) "Looks engaged in reports,"
            "Helvetica" (num 8) LIGHT_TEXT "middle";
    SString cx (box_y - num 18) "but attention is uncertain"
            "Helvetica" (num 8) LIGHT_TEXT "middle";
    SString cx (box_y - num 32)
            ("Privacy protections increase the overlap between what we can " +:+
             "measure and what is real.")
            "Helvetica-Oblique" (dec 75 10) MID_TEXT "middle" ] |} in
  [ RenderDrawing d (num 0) (num 0) ].

(** [ContentPage.draw(canvas, doc)], with [doc.page] as [doc_page]. *)
Definition footer_prefix : string :=
  "Phantom Engaged  •  Position Paper v" +:+ VERSION +:+ "  •  " +:+ DATE +:+
  "   Page ".

Definition ContentPage_draw (doc_page : Z) : list Event :=
  [ SaveState;
    SetFont "Helvetica" (dec 75 10);
    SetFillColor LIGHT_TEXT;
    DrawString (inch * dec 85 100) (inch * dec 5 10)
      (footer_prefix +:+ pretty (doc_page - 1)%Z);
    DrawRightString (W - inch * dec 85 100) (inch * dec 5 10)
      "Chuck Mullaney • Expert.Email";
    SetStrokeColor "#D8DFE3";
    SetLineWidth (dec 4 10);
    Line (inch * dec 85 100) (inch * dec 65 100)
         (W - inch * dec 85 100) (inch * dec 65 100);
    RestoreState ].

(** [CoverPage.draw(canvas, doc)]; the page counter is not read. *)
Definition CoverPage_draw (doc_page : Z) : list Event :=
  let bar_x := inch * dec 95 100 in
  let bar_bottom := H - inch * dec 505 100 in
  let bar_height := (H - inch * dec 15 10) - bar_bottom in
  let y_sub := H - inch * dec 31 10 in
  let bx := inch * dec 115 100 in
  let by_ := inch * dec 13 10 in
  let bw := W - inch * dec 215 100 in
  let bh := inch * dec 95 100 in
  [ SaveState;
    SetFillColor COVER_BG;
    Rect (num 0) (num 0) W H;
    SetFillColor TEAL;
    Rect bar_x bar_bottom (num 4) bar_height;
    SetFont "Helvetica-Bold" (num 58);
    SetFillColor white;
    DrawString (inch * dec 115 100) (H - inch * dec 18 10) "Phantom";
    DrawString (inch * dec 115 100) (H - inch * dec 255 100) "Engaged";
    SetFont "Helvetica" (num 13);
    SetFillColor "#8FA8B8";
    DrawString (inch * dec 115 100) y_sub
      "A position paper on the invisible overlap between engaged";
    DrawString (inch * dec 115 100) (y_sub - num 17)
      "and disengaged subscribers created by modern email";
    DrawString (inch * dec 115 100) (y_sub - num 34) "privacy protections";
    SetStrokeColor "#4A6070";
    SetLineWidth (dec 5 10);
    Line (inch * dec 115 100) (y_sub - num 52) (W - inch * num 1) (y_sub - num 52);
    SetFont "Helvetica-Bold" (num 13);
    SetFillColor TEAL;
    DrawString (inch * dec 115 100) (y_sub - num 75) "Chuck Mullaney";
    SetFont "Helvetica" (num 11);
    SetFillColor LIGHT_TEXT;
    DrawString (inch * dec 115 100) (y_sub - num 93) "Expert.Email";
    DrawString (inch * dec 115 100) (y_sub - num 111)
      ("Version " +:+ VERSION +:+ "  •  " +:+ DATE);
    SetFillColor "#253545";
    RoundRect bx by_ bw bh (num 3);
    SetFillColor TEAL;
    Rect bx by_ (num 4) bh;
    SetFont "Helvetica-Oblique" (num 10);
    SetFillColor "#B0C4CE";
    DrawString (bx + num 18) (by_ + bh - num 24)
      ("When privacy protections break open tracking, a large portion of " +:+
       "your list becomes impossible to classify using");
    DrawString (bx + num 18) (by_ + bh - num 39)
      ("email analytics alone. That invisible overlap is the Phantom Engaged " +:+
       "problem: people who look engaged in");
    DrawString (bx + num 18) (by_ + bh - num 54)
      "reports but may or may not be paying attention.";
    SetFont "Helvetica" (num 8);
    SetFillColor "#607080";
    DrawString (inch * dec 115 100) (inch * dec 75 100)
      ("© 2026 Chuck Mullaney. You may share this document in full " +:+
       "with attribution.");
    RestoreState ].

Section Build.
Variable argv : list string.
Variable wrap : Wrapper.
Variable table_height : list (list Paragraph) -> list Qc -> Qc.
(** [HexColor.hexval()], a ReportLab method. *)
Variable hexval : string -> string.

(** [TOOL_URL = sys.argv[1] if len(sys.argv) > 1 else ...]. *)
Definition TOOL_URL : string :=
  if bool_decide (1 < length argv)%nat
  then default EmptyString (argv !! 1%nat)
  else "https://expert.email/classify".

Definition dq : string := str1 dquote.

Definition margin : Qc := inch * dec 85 100.
Definition avail_w : Qc := W - margin * num 2.

(** Helpers [sec], [subsec], [h3], [p], [sp], [callout], [bullet]. *)
Definition sec (title : string) : list Flowable :=
  [FParagraph (Para title sH1); FTealRule (W - inch * dec 17 10);
   FSpacer (num 1) (num 8)].

Definition subsec (title : string) : list Flowable :=
  [FParagraph (Para title sH2); FSpacer (num 1) (num 4)].

Definition h3 (title : string) : list Flowable :=
  [FParagraph (Para title sH3); FSpacer (num 1) (num 4)].

Definition p (text : string) : Flowable := FParagraph (Para text sNormal).

Definition sp (h : Qc) : Flowable := FSpacer (num 1) h.
Definition sp_default : Flowable := sp (num 6).

(** [callout(texts, avail_w)] is [CalloutBox(texts, avail_w, bg=CALLOUT_BG,
    style=None)]; a missing style is [sCalloutItalic], the border is [TEAL]
    and the padding 14. *)
Definition callout (texts : list TextItem) (avail_w0 : Qc) : Flowable :=
  FCallout (fst (CalloutBox_init wrap texts avail_w0 CALLOUT_BG TEAL (num 14)
                                 sCalloutItalic)).

Definition bullet (text : string) : Flowable :=
  FParagraph (Para ("•  " +:+ text) sBullet).

Definition tdata : list (list Paragraph) :=
  [[Para ("<b>Signal</b>") sTableHdr;
  Para ("<b>Pre-Privacy Implication</b>") sTableHdr;
  Para ("<b>Post-Privacy Reality</b>") sTableHdr];
  [Para ("<b>Open</b>") sTableBoldCell;
  Para ("A person likely viewed the email.") sTableCell;
  Para ("Often means the client fetched images. May happen without a human reading.") sTableCell];
  [Para ("<b>No open</b>") sTableBoldCell;
  Para ("A person likely did not view the email.") sTableCell;
  Para ("Could be a non-reader, or a reader whose client blocks tracking.") sTableCell];
  [Para ("<b>Click</b>") sTableBoldCell;
  Para ("A person intentionally acted.") sTableCell;
  Para ("Still the cleanest in-email proof of intent. Not perfect, but far stronger " +:+
    "than opens.") sTableCell];
  [Para ("<b>Reply</b>") sTableBoldCell;
  Para ("A person intentionally engaged.") sTableCell;
  Para ("High-confidence intent signal. May bypass link blockers and tracking " +:+
    "limitations.") sTableCell];
  [Para ("<b>Purchase / login</b>") sTableBoldCell;
  Para ("Downstream proof of value.") sTableCell;
  Para ("Best proof if you can connect it. The gold standard for classification.") sTableCell]].

Definition col_w : list Qc :=
  [avail_w * dec 15 100; avail_w * dec 35 100; avail_w * dec 50 100].

Definition abc_data : list (list Paragraph) :=
  [[Para (EmptyString) sTableHdr;
  Para ("<b>Classification</b>") sTableHdr;
  Para ("<b>Signals</b>") sTableHdr;
  Para ("<b>Treatment</b>") sTableHdr];
  [Para ("<b><font size='16' color='#3B9B8F'>A</font></b>") sTableBoldCell;
  Para ("<b>Confirmed Intent</b>") sTableBoldCell;
  Para ("Clicks, replies, purchases, logins, downstream events. Opens optional.") sTableCell;
  Para ("Send with confidence. These subscribers have demonstrated attention.") sTableCell];
  [Para ("<b><font size='16' color='#3B9B8F'>B</font></b>") sTableBoldCell;
  Para ("<b>Phantom (Uncertain)</b>") sTableBoldCell;
  Para ("Opens present. No intentional actions. Ambiguous by design.") sTableCell;
  Para ("Handle conservatively. This is a holding state, not a verdict.") sTableCell];
  [Para ("<b><font size='16' color='#3B9B8F'>C</font></b>") sTableBoldCell;
  Para ("<b>Unengaged (Observable)</b>") sTableBoldCell;
  Para ("No opens, clicks, replies, or downstream actions within a defined window.") sTableCell;
  Para ("Eligible for controlled, finite re-engagement. Safest to suppress or sunset. " +:+
    "Clearest candidates for removal.") sTableCell]].

Definition abc_col : list Qc :=
  [avail_w * dec 6 100; avail_w * dec 18 100; avail_w * dec 38 100; avail_w * dec 38 100].

(** The markup of the Approach-A callout, an f-string around [TOOL_URL]. *)
Definition approach_a_text : string :=
  "<b>Apply this framework to your list.</b>  We built a <a href=" +:+ dq +:+ TOOL_URL
    +:+ dq +:+ " color=" +:+ dq +:+ hexval LINK_COLOR +:+ dq +:+
    ">free classification tool</a> to help you map your subscribers into the A/B/C " +:+
    "framework described above. There is no opt-in and no paywall — just a " +:+
    "practical starting point for teams ready to move from open-based assumptions " +:+
    "to intent-based classification.".

Definition tool_callout_texts : list TextItem :=
  [Styled approach_a_text sCalloutNormal].

Definition final_callout : list TextItem :=
  [Styled ("<b>If you share one sentence with your team, share this:</b>") sCalloutNormal;
  Styled ("<i>Stop asking your dashboards to answer a question they can no longer " +:+
    "answer. Replace false certainty with policies that protect trust and list " +:+
    "health.</i>") sCalloutItalic].

Definition refs : list string :=
  ["[1] Apple. " +:+ dq +:+ "Mail Privacy Protection & Privacy." +:+ dq +:+
    " Apple Legal. apple.com/legal/privacy/data/en/mail-privacy-protection/";
  "[2] Apple Support. " +:+ dq +:+ "Use Mail Privacy Protection on Mac." +:+ dq +:+
    " support.apple.com/guide/mail/use-mail-privacy-protection-mlhl03be2866/mac";
  "[3] Twilio SendGrid Docs. " +:+ dq +:+
    "Understanding Apple Mail Privacy Protection and Open Events" +:+ dq +:+
    " and Event Webhook reference for MPP-generated opens.";
  "[4] Google Workspace Admin Help. " +:+ dq +:+ "Email sender guidelines" +:+ dq +:+
    " (bulk sender expectations including one-click unsubscribe). " +:+
    "support.google.com/a/answer/81126";
  "[5] Yahoo. " +:+ dq +:+ "Sender Best Practices" +:+ dq +:+
    " (includes one-click unsubscribe guidance and processing expectations). " +:+
    "senders.yahooinc.com/best-practices/"].

Definition refs_block : list Flowable :=
  [FTealRule avail_w; sp (num 12)] ++
  [FParagraph (Para ("<b>References</b>") sH2); sp (num 6)] ++
  map (fun r => FParagraph (Para r sRef)) refs.

(** The markup of the Approach-C link paragraph, an f-string around [TOOL_URL]. *)
Definition approach_c_text : string :=
  "There is no opt-in, no paywall, and no sales pitch. It exists to help working " +:+
    "marketers put classification discipline into practice.  <a href=" +:+ dq +:+ TOOL_URL +:+
    dq +:+ " color=" +:+ dq +:+ hexval LINK_COLOR +:+ dq +:+
    ">Access the free tool here.</a>".

(** The story assembled by [build], in the order of its [append] and
    [extend] calls.  Table style commands are left out. *)
Definition story : list StoryItem :=
  [One (FSpacer (num 1) H);
  One (FPageBreak)] ++
  map One (sec ("Executive Summary")) ++
  [One (p ("For years, marketers treated opens as a proxy for attention. That proxy is " +:+
    "now unreliable at scale."));
  One (sp_default);
  One (p ("Apple Mail Privacy Protection (MPP) is designed to prevent senders from " +:+
    "learning about Mail activity by downloading remote content in the background, " +:+
    "not only when someone views the message, and by obscuring IP-based inference. " +:+
    "<super>[1][2]</super>"));
  One (sp_default);
  One (p ("This shift creates a practical failure mode: you can no longer confidently " +:+
    "distinguish between a quiet, loyal reader and a truly disengaged recipient " +:+
    "whose client triggered tracking anyway. Those two people collapse into the " +:+
    "same reporting bucket when you rely on opens."));
  One (sp_default);
  One (p ("That collapse goes beyond analytics. It causes real list damage when " +:+
    "marketers run re-engagement or suppression based on signals that no longer " +:+
    "map cleanly to human attention. In the post-privacy world, the highest risk " +:+
    "is not the subscribers you can clearly identify as inactive. It is the " +:+
    "subscribers who <i>appear</i> active but whose attention cannot be verified."));
  One (sp_default);
  One (callout [Plain ("Phantom Engaged is the name for that uncertainty bucket: an unavoidable "
    +:+ "overlap created when privacy protections break our ability to distinguish " +:+
    "silence from disengagement using email metrics alone.")] avail_w);
  One (sp_default);
  One (p ("The practical solution is not a clever new metric. It is a classification " +:+
    "stance: use intentional actions as proof of engagement, treat opens as weak " +:+
    "evidence, and handle ambiguity conservatively to avoid irreversible harm."))] ++
  map One (sec ("1. What Changed in Measurement")) ++
  [One (p ("The modern inbox is increasingly built to protect recipients from hidden " +:+
    "tracking. Apple’s approach is the most explicit: when a user enables Protect " +:+
    "Mail Activity, remote content is privately downloaded in the background when " +:+
    "the email is received, rather than when it is viewed, helping prevent senders " +:+
    "from learning about Mail activity. <super>[1][2]</super>"));
  One (sp_default);
  One (p ("From a marketer’s perspective, that background fetch is the core issue. The " +:+
    "tracking pixel may load even if the person never intentionally opened the " +:+
    "email. Many email platforms now expose indicators for machine-generated opens " +:+
    "or MPP-related opens for this reason (for example, SendGrid’s MPP flag). " +:+
    "<super>[3]</super>"));
  One (sp_default);
  One (p ("At the same time, mailbox providers are tightening sender expectations around " +:+
    "authentication, one-click unsubscribe, and complaint thresholds. " +:+
    "<super>[4][5]</super> The ecosystem is simultaneously becoming less " +:+
    "measurable and less forgiving."));
  One (sp_default);
  One (callout [Styled ("<b>The core tension:</b> <i>You are being asked to prove you send wanted mail "
    +:+ "while losing the cleanest historical proxy (opens) that many teams relied on " +:+
    "to define ‘wanted.’</i>") sCalloutNormal] avail_w)] ++
  map One (sec ("2. Why the Open Event No Longer Means Attention")) ++
  [One (p ("Opens were always an indirect measurement. Even before MPP, they depended on " +:+
    "image loading, client settings, caching behaviors, security tools, and " +:+
    "link-scanning. Privacy protections push this from ‘imperfect’ to " +:+
    "‘structurally unreliable’ for classification purposes."));
  One (sp (num 10));
  One (FTable tdata col_w 1);
  One (sp (num 10));
  One (callout [Plain ("If you take one thing from this paper, take this: opens are now evidence that "
    +:+ "something rendered remote content, not evidence that a person noticed, read, " +:+
    "agreed, or wanted more.")] avail_w)] ++
  map One (sec ("3. The Phantom Engaged Overlap")) ++
  [One (p ("In a pre-privacy mental model, the list felt cleanly separable: engaged " +:+
    "subscribers showed opens and clicks; disengaged subscribers went dark. In the " +:+
    "post-privacy model, measurement pushes a large number of people into the same " +:+
    "middle zone: visible activity without confirmable intent."));
  One (sp (num 8));
  One (FOverlapDiagram (OverlapDiagram_init avail_w));
  One (sp (num 8));
  One (p ("That overlap is not a new audience segment you can optimize away. It is a " +:+
    "fact of measurement uncertainty. Attempting to force certainty (for example, " +:+
    "by treating opens as attention regardless) is where most classification " +:+
    "mistakes begin."))] ++
  map One (sec ("4. A Classification Framework That Admits Uncertainty")) ++
  [One (p ("Most engagement models assume clean boundaries. The A/B/C framework starts " +:+
    "from the opposite premise: uncertainty is the default state, and the burden " +:+
    "of proof falls on the signals, not on the subscriber. It is intentionally " +:+
    "conservative, designed to protect silent readers and prevent irreversible " +:+
    "decisions based on noisy data."));
  One (sp (num 10));
  One (FTable abc_data abc_col 1);
  One (sp (num 10));
  One (p ("<b>An important distinction:</b> Bucket B is not a behavior segment or a " +:+
    "personality type. It is a holding state that says: “We don’t currently have " +:+
    "enough proof to classify this person as engaged or disengaged.” Treating it " +:+
    "as anything else defeats its purpose."));
  One (sp (num 10));
  One (callout tool_callout_texts avail_w)] ++
  map One (sec ("5. What Goes Wrong When You Ignore the Uncertainty")) ++
  [One (p ("Most list harm in the post-privacy era happens when teams apply pre-privacy " +:+
    "rules to post-privacy signals. These mistakes are common, understandable, and " +:+
    "worth naming clearly so you can recognize them in your own program:"));
  One (sp (num 4));
  One (bullet ("<b>Resend-to-non-openers becomes a frequency amplifier.</b> What was once a "
    +:+ "relevance tactic now adds volume to inboxes that may already be receiving " +:+
    "your emails, just without generating a trackable open."));
  One (bullet ("<b>Aggressive “last chance” campaigns pressure silent readers.</b> When quiet "
    +:+ "loyalty looks identical to disengagement in your data, urgency-based " +:+
    "re-engagement risks pushing away people who were still paying attention."));
  One (bullet ("<b>Open-based suppression quietly removes high-value subscribers.</b> Readers "
    +:+ "whose clients block tracking or who consume emails without triggering pixels " +:+
    "get sorted into your inactive bucket, and deleted."));
  One (bullet ("<b>Dashboard confidence replaces relationship awareness.</b> Teams over-trust "
    +:+ "reporting and under-trust what they know about long-term customer behavior " +:+
    "and brand affinity."));
  One (sp (num 4));
  One (p ("These errors are rarely visible in the moment because the reporting still " +:+
    "looks healthy. The cost shows up over time: higher complaint rates, weaker " +:+
    "inbox placement, reduced conversion, and a list that grows harder to recover."));
  One (sp_default);
  One (callout [Plain ("Phantom Engaged is why modern re-engagement is primarily a risk management "
    +:+ "problem. The most important decisions are about what you choose <b>not</b> to " +:+
    "do when you cannot know the full truth from email metrics alone.")] avail_w)] ++
  map One (sec ("6. Principles for Working Marketers")) ++
  [One (p ("These are principles, not tactics. Tactics change with platforms and tools. " +:+
    "Principles hold up regardless of which ESP you use or how large your list is."));
  One (sp (num 4))] ++
  map One (subsec ("Principle 1: Intentional proof beats inferred attention.")) ++
  [One (p ("Clicks, replies, purchases, logins, and other downstream events are not " +:+
    "perfect, but they reflect deliberate action. Build your classification around " +:+
    "these signals first. Treat opens as supporting evidence, not as the " +:+ "foundation."));
  One (sp (num 4))] ++
  map One (subsec ("Principle 2: When you are uncertain, restraint is a strategy.")) ++
  [One (p ("When you cannot safely distinguish a loyal quiet reader from a non-reader, " +:+
    "pressure and urgency-based tactics carry real risk. It is better to reduce " +:+
    "frequency, adjust content, or route people into lower-pressure paths than to " +:+
    "gamble trust for short-term clarity."));
  One (sp (num 4))] ++
  map One (subsec ("Principle 3: Classify first, optimize second.")) ++
  [One (p ("Optimization assumes your labels are correct. In the post-privacy world, " +:+
    "those labels are often wrong. Invest in building a truthful classification " +:+
    "stance before chasing marginal KPI lifts. The returns from accurate " +:+
    "classification will outperform the returns from optimizing against flawed " +:+
    "segments."));
  One (sp (num 4))] ++
  map One (subsec ("Principle 4: Lock your observation windows before judging.")) ++
  [One (p ("An observation window is the amount of time you commit to watching for an " +:+
    "intentional signal before changing how you treat someone. Set it in advance. " +:+
    "Without a fixed window, it is easy to unconsciously move the goalposts to " +:+
    "match whatever story your dashboard is telling that week. A locked window " +:+
    "turns engagement policy into a fair, repeatable process."));
  One (sp (num 4))] ++
  map One (subsec ("Principle 5: Prefer reversible actions over irreversible ones.")) ++
  [One (p ("When you are unsure, choose actions you can undo. Reducing frequency, " +:+
    "changing content, or moving people into a different sending cadence are all " +:+
    "reversible. Suppression and permanent removal are not. Save irreversible " +:+
    "decisions for situations where you have high confidence."))] ++
  map One (sec ("7. A Note on Ethics and Privacy")) ++
  [One (p ("Phantom Engaged is not a call to outsmart privacy protections. Those " +:+
    "protections exist because recipients deserve control over how they are " +:+
    "tracked. The appropriate response is to adapt how we interpret metrics and " +:+
    "how we treat people, not to find clever workarounds."));
  One (sp (num 2));
  One (p ("This paper takes a clear stance on where the line should be:"));
  One (sp (num 4));
  One (bullet ("Deceptive workarounds designed to recreate individual-level surveillance " +:+
    "undermine the trust that makes email marketing sustainable."));
  One (bullet ("People should not be penalized for failing to produce trackable signals. " +:+
    "Silence is not the same as rejection."));
  One (bullet ("Manufacturing urgency to force clicks as a “proof of life” mechanism treats "
    +:+ "subscribers as problems to solve rather than people to serve."));
  One (bullet ("The better path is consent-based: clear expectations, easy unsubscribe, and "
    +:+ "content that earns attention on its own merits."));
  One (sp (num 4));
  One (p ("This stance also aligns with the direction mailbox providers are heading: " +:+
    "easier unsubscribe, stronger authentication requirements, and lower tolerance " +:+
    "for unwanted mail. <super>[4][5]</super> Working with that trajectory, rather " +:+
    "than against it, is both the ethical choice and the practical one."))] ++
  map One (sec ("8. What Competent Teams Do Next")) ++
  [One (p ("This is not a campaign checklist. It is a governance upgrade: changes to the " +:+
    "rules your email program runs on."));
  One (sp (num 4))] ++
  map One (h3 ("Adopt a measurement hierarchy.")) ++
  [One (p ("Write down, in order, which signals you trust most for engagement " +:+
    "classification. In most programs, downstream events and replies outrank " +:+
    "clicks, and clicks outrank opens. Having this documented means your team " +:+
    "makes consistent decisions instead of defaulting to whatever metric is " +:+
    "easiest to pull."));
  One (sp (num 4))] ++
  map One (h3 ("Separate deliverability safety from performance reporting.")) ++
  [One (p ("Your dashboard is a performance tool. It should not be the final authority on " +:+
    "who stays and who goes. Deliverability safety policies should be conservative " +:+
    "by default and should explicitly account for the uncertainty that " +:+
    "privacy-inflated opens create."));
  One (sp (num 4))] ++
  map One (h3 ("Design for silent readers.")) ++
  [One (p ("Accept that a meaningful percentage of your audience will never click but " +:+
    "still receives value from your emails. If your program requires clicking to " +:+
    "avoid being treated as inactive, your program is hostile to a real segment of " +:+
    "real people. That is worth examining."));
  One (sp (num 4))] ++
  map One (h3 ("Reduce emotional automation.")) ++
  [One (p ("Revisit any automation that interprets silence as rejection. In the " +:+
    "post-privacy world, silence is often just silence, not a statement about your " +:+
    "brand, your content, or your value."));
  One (sp (num 4))] ++
  map One (h3 ("Invest in proof where it actually exists.")) ++
  [One (p ("Where feasible, connect email to outcomes you can verify: purchases, logins, " +:+
    "subscription renewals, product usage. This is not about surveilling " +:+
    "individuals. It is about ensuring you are not mistaking a privacy artifact " +:+
    "for actual disengagement."))] ++
  map One (sec ("Conclusion")) ++
  [One (p ("Phantom Engaged is the name for a reality email marketers can no longer " +:+
    "afford to ignore: a large portion of your list now sits in an overlap where " +:+
    "the most common engagement signal (opens) is not trustworthy proof of " +:+ "attention."));
  One (sp_default);
  One (p ("The correct response is not panic, and it is not denial. It is classification " +:+
    "discipline: prove intent where you can, admit uncertainty where you must, and " +:+
    "treat that uncertainty with restraint."));
  One (sp (num 8));
  One (callout final_callout avail_w);
  One (sp (num 16));
  One (FTealRule avail_w);
  One (sp (num 16));
  One (FParagraph (Para ("Put This Into Practice") sH2));
  One (sp (num 10));
  One (p ("The ideas in this paper become useful when you apply them to your own " +:+
    "subscriber data. To make that starting point easier, we built a free tool " +:+
    "that walks you through the A/B/C classification framework described in " +:+
    "Section 4."));
  One (sp (num 4));
  One (p approach_c_text);
  One (sp (num 16))] ++
  [KeepTogether refs_block] ++
  [One (sp (num 8));
  One (FTealRule avail_w);
  One (sp (num 12));
  One (FParagraph (Para ("<b>About the Author</b>") sH2));
  One (sp (num 6));
  One (p ("Chuck Mullaney brings 25 years of digital marketing expertise, with 15 years " +:+
    "dedicated exclusively to email marketing and inbox deliverability. He has " +:+
    "architected six email platforms: two public facing systems that achieved " +:+
    "significant market adoption, and four proprietary platforms built for private " +:+
    "clients."));
  One (sp_default);
  One (p ("In his administrative oversight of the two public platforms, Chuck gained " +:+
    "unique insight into the email marketing strategies of 26,000 businesses, " +:+
    "observing firsthand their approaches to campaigns, automation, deliverability " +:+
    "challenges, and subscriber engagement. This rare vantage point, combined with " +:+
    "years of consulting for mid market and enterprise clients, has given him " +:+
    "comprehensive experience in the specialized practice of safely re-engaging " +:+
    "dormant subscribers while protecting sender reputation and deliverability."));
  One (sp (num 10));
  One (p ("<font color=" +:+ dq +:+ hexval TEAL +:+ dq +:+
    ">Contact: chuck@expert.email  •  Web: Expert.Email</font>"))].


Definition frame : Frame :=
  Frame_default margin (inch * dec 85 100) avail_w (H - inch * dec 16 10) "normal".

Definition cover_frame : Frame :=
  {| fr_x := num 0; fr_y := num 0; fr_width := W; fr_height := H; fr_id := "cover";
     leftPadding := num 0; bottomPadding := num 0;
     rightPadding := num 0; topPadding := num 0 |}.

(** [PhantomDoc.__init__]: the templates handed to [addPageTemplates]. *)
Definition PhantomDoc_templates : list PageTemplate :=
  [ {| pt_id := "Cover"; pt_frame := cover_frame; onPage := CoverPage_draw |};
    {| pt_id := "Content"; pt_frame := frame; onPage := ContentPage_draw |} ].

(** [final_story = [story[0]]; final_story.append(NextPageTemplate('Content'));
    final_story.extend(story[1:])].  An empty story would raise at
    [story[0]]; the story above is never empty. *)
Definition final_story : list StoryItem :=
  match story with
  | [] => []
  | s0 :: rest => [s0] ++ [One (FNextPageTemplate "Content")] ++ rest
  end.

(** [build()]: the pages that [doc.build(final_story)] lays out. *)
Definition build : result BuildError (list PageRecord) :=
  engine_build wrap table_height PhantomDoc_templates final_story.
End Build.
End PhantomEngaged.


(** * generate_whitepaper_full.py *)
Module WhitepaperFull.

Definition VERSION : string := "5.0".
Definition TEXT_MUTED : string := "#8A9BB5".
Definition BORDER_SUBTLE : string := "#E2E6EC".
Definition MARGIN : Qc := inch * num 1.

(** [draw_content_page(canvas, doc)], with [doc.page] as [doc_page]. *)
Definition draw_content_page (doc_page : Z) : list Event :=
  [ SaveState;
    SetFont "Helvetica" (num 9);
    SetFillColor TEXT_MUTED;
    DrawString MARGIN (inch * dec 5 10)
      ("Phantom Engaged Position Paper v" +:+ VERSION);
    DrawRightString (W - MARGIN) (inch * dec 5 10)
      ("Page " +:+ pretty doc_page +:+ " | Expert.Email");
    SetStrokeColor BORDER_SUBTLE;
    SetLineWidth (num 1);
    Line MARGIN (inch * dec 65 100) (W - MARGIN) (inch * dec 65 100);
    RestoreState ].

Definition DARK_BG : string := "#1C2A3A".
Definition TEAL : string := "#2BA5A5".
Definition TEAL_MUTED : string := "#EBF6F6".
Definition TEXT_BODY : string := "#2D3E50".
Definition white : string := "white".
(** The stroke of a [Rect] that is given no [strokeColor]. *)
Definition default_stroke : string := "black".

Definition sCalloutText : ParagraphStyle :=
  {| style_name := "sCalloutText"; fontName := "Helvetica-Oblique";
     fontSize := num 11; leading := num 16; textColor := TEXT_BODY;
     alignment := TA_LEFT; spaceBefore := num 0; spaceAfter := num 0;
     leftIndent := num 0; bulletIndent := num 0 |}.

Definition sCalloutNormal : ParagraphStyle :=
  {| style_name := "sCalloutNormal"; fontName := "Helvetica";
     fontSize := num 11; leading := num 16; textColor := TEXT_BODY;
     alignment := TA_LEFT; spaceBefore := num 0; spaceAfter := num 0;
     leftIndent := num 0; bulletIndent := num 0 |}.

(** [TOOL_URL] and [OUTPUT], read from [sys.argv] when the module loads. *)
Definition TOOL_URL (argv : list string) : string :=
  if bool_decide (1 < length argv)%nat
  then default EmptyString (argv !! 1%nat)
  else "https://expert.email/classify".

Definition OUTPUT (argv : list string) : string :=
  if bool_decide (2 < length argv)%nat
  then default EmptyString (argv !! 2%nat)
  else "Phantom_Engaged_Whitepaper_Full.pdf".

(** The first argument of [ModernCallout]: one text, or a list of items. *)
Inductive TextItems :=
| OneText (s : string)
| ItemList (l : list TextItem).

Record ModernCallout := {
  mc_width : Qc;
  mc_bg : string;
  mc_border_color : string;
  mc_padding : Qc;
  mc_paras : list Paragraph;
  mc_inner_w : Qc;
  mc_height : Qc;
}.

Section Callout.
Variable wrap : Wrapper.

(** [for p in self.paras: _, ph = p.wrap(self.inner_w, 1000); total_h += ph + 10]. *)
Definition mc_measure_step (iw : Qc) (acc : Qc * list Event) (p : Paragraph)
  : Qc * list Event :=
  let ph := snd (wrap p iw (num 1000)) in
  (fst acc + (ph + num 10), snd acc ++ [WrapCall p iw (num 1000)]).

(** [ModernCallout.__init__]: the callout and the wrap calls it makes. *)
Definition ModernCallout_init (text_items : TextItems) (width0 : Qc)
  : ModernCallout * list Event :=
  let pad := num 18 in
  let items := match text_items with
               | OneText s => [Plain s]
               | ItemList l => l
               end in
  let ps := map (make_para sCalloutText) items in
  let iw := width0 - (pad * num 2) - num 4 in
  let m := foldl (mc_measure_step iw) (num 0, []) ps in
  ({| mc_width := width0; mc_bg := TEAL_MUTED; mc_border_color := TEAL;
      mc_padding := pad; mc_paras := ps; mc_inner_w := iw;
      mc_height := fst m - num 10 + (pad * num 2) |},
   snd m).

(** [_, ph = p.wrap(self.inner_w, 1000); p.drawOn(c, x, y - ph); y -= (ph + 10)]. *)
Definition mc_draw_step (iw x : Qc) (acc : Qc * list Event) (p : Paragraph)
  : Qc * list Event :=
  let ph := snd (wrap p iw (num 1000)) in
  (fst acc - (ph + num 10),
   snd acc ++ [WrapCall p iw (num 1000); DrawOn p x (fst acc - ph)]).

(** [ModernCallout.draw]: the final value of the cursor [y] and the events. *)
Definition ModernCallout_draw_run (self : ModernCallout) : Qc * list Event :=
  let y := mc_height self - mc_padding self in
  let x := num 4 + mc_padding self in
  let r := foldl (mc_draw_step (mc_inner_w self) x) (y, []) (mc_paras self) in
  (fst r,
   [SetFillColor (mc_bg self);
    Rect (num 0) (num 0) (mc_width self) (mc_height self);
    SetFillColor (mc_border_color self);
    Rect (num 0) (num 0) (num 4) (mc_height self)] ++ snd r).

Definition ModernCallout_draw (self : ModernCallout) : list Event :=
  snd (ModernCallout_draw_run self).
End Callout.

(** [OverlapDiagram.__init__]. *)
Definition OverlapDiagram_init (width0 : Qc) : OverlapDiagram :=
  {| od_width := width0; od_height := num 110 |}.

(** [OverlapDiagram.draw]: the drawing of size [self.width] by
    [self.height], the shapes added to it, and its rendering at the origin
    of the flowable. *)
Definition OverlapDiagram_draw (self : OverlapDiagram) : list Event :=
  let cx := od_width self / num 2 in
  let cy := od_height self / num 2 + num 10 in
  let bar_w := num 420 in
  let bar_h := num 56 in
  let x_start := cx - (bar_w / num 2) in
  let y_start := cy - (bar_h / num 2) in
  let phantom_w := num 160 in
  let phantom_x := cx - (phantom_w / num 2) in
  let d := {| dr_width := od_width self; dr_height := od_height self;
              dr_shapes :=
  [ SRect x_start y_start bar_w bar_h (num 4) (num 4) (Some DARK_BG)
          (Some default_stroke) (num 0);
    SRect phantom_x y_start phantom_w bar_h (num 0) (num 0) (Some TEAL_MUTED)
          (Some TEAL) (num 2);
    SString (x_start + num 65) (y_start + (bar_h / num 2) - num 4) "ENGAGED"
            "Helvetica-Bold" (num 11) white "middle";
    SString (x_start + bar_w - num 65) (y_start + (bar_h / num 2) - num 4)
            "UNENGAGED" "Helvetica-Bold" (num 11) TEXT_MUTED "middle";
    SString cx (y_start + (bar_h / num 2) + num 4) "PHANTOM ENGAGED"
            "Helvetica-Bold" (num 11) TEAL "middle";
    SString cx (y_start + (bar_h / num 2) - num 10) "(Uncertainty)"
            "Helvetica" (num 9) TEAL "middle";
    SString cx (y_start - num 20)
            ("Privacy protections increase the overlap between what we can " +:+
             "measure and what is real.")
            "Helvetica-Oblique" (num 9) TEXT_MUTED "middle" ] |} in
  [ RenderDrawing d (num 0) (num 0) ].

End WhitepaperFull.

(** * generate_whitepaper_proof.py *)
Module WhitepaperProof.

Definition TEXT_MUTED : string := "#8A9BB5".
Definition MARGIN : Qc := inch * num 1.

(** [draw_content_page(canvas, doc)], with [doc.page] as [doc_page]. *)
Definition draw_content_page (doc_page : Z) : list Event :=
  [ SaveState;
    SetFont "Helvetica" (num 9);
    SetFillColor TEXT_MUTED;
    DrawString MARGIN (inch * dec 5 10) "Phantom Engaged Position Paper";
    DrawRightString (W - MARGIN) (inch * dec 5 10)
      ("Page " +:+ pretty doc_page +:+ " | Expert.Email");
    RestoreState ].

Definition DARK_BG : string := "#1C2A3A".
Definition TEAL : string := "#2BA5A5".
Definition TEAL_MUTED : string := "#EBF6F6".
Definition TEXT_BODY : string := "#2D3E50".
Definition white : string := "white".
(** The stroke of a [Rect] that is given no [strokeColor]. *)
Definition default_stroke : string := "black".

Definition sCalloutText : ParagraphStyle :=
  {| style_name := "sCalloutText"; fontName := "Helvetica-Oblique";
     fontSize := num 11; leading := num 16; textColor := TEXT_BODY;
     alignment := TA_LEFT; spaceBefore := num 0; spaceAfter := num 0;
     leftIndent := num 0; bulletIndent := num 0 |}.

Record ModernCallout := {
  mc_width : Qc;
  mc_text : string;
  mc_bg : string;
  mc_border_color : string;
  mc_padding : Qc;
  mc_p : Paragraph;
  mc_inner_w : Qc;
  mc_h : Qc;
  mc_height : Qc;
}.

(** [ModernCallout.__init__(text, width)]: the callout and its one wrap
    call, whose height it keeps in [self.h]. *)
Definition ModernCallout_init (wrap : Wrapper) (text : string) (width0 : Qc)
  : ModernCallout * list Event :=
  let pad := num 18 in
  let p := Para text sCalloutText in
  let iw := width0 - (pad * num 2) - num 4 in
  let h := snd (wrap p iw (num 1000)) in
  ({| mc_width := width0; mc_text := text; mc_bg := TEAL_MUTED;
      mc_border_color := TEAL; mc_padding := pad; mc_p := p; mc_inner_w := iw;
      mc_h := h; mc_height := h + (pad * num 2) |},
   [WrapCall p iw (num 1000)]).

(** [ModernCallout.draw]. *)
Definition ModernCallout_draw (self : ModernCallout) : list Event :=
  [ SetFillColor (mc_bg self);
    Rect (num 0) (num 0) (mc_width self) (mc_height self);
    SetFillColor (mc_border_color self);
    Rect (num 0) (num 0) (num 4) (mc_height self);
    DrawOn (mc_p self) (num 4 + mc_padding self) (mc_padding self) ].

(** [OverlapDiagram.__init__]. *)
Definition OverlapDiagram_init (width0 : Qc) : OverlapDiagram :=
  {| od_width := width0; od_height := num 100 |}.

(** [OverlapDiagram.draw]: the drawing of size [self.width] by
    [self.height], the shapes added to it, and its rendering at the origin
    of the flowable. *)
Definition OverlapDiagram_draw (self : OverlapDiagram) : list Event :=
  let cx := od_width self / num 2 in
  let cy := od_height self / num 2 in
  let bar_w := num 400 in
  let bar_h := num 50 in
  let x_start := cx - (bar_w / num 2) in
  let y_start := cy - (bar_h / num 2) in
  let d := {| dr_width := od_width self; dr_height := od_height self;
              dr_shapes :=
  [ SRect x_start y_start (num 120) bar_h (num 0) (num 0) (Some DARK_BG)
          (Some default_stroke) (num 0);
    SString (x_start + num 60) (y_start + num 20) "ENGAGED"
            "Helvetica-Bold" (num 10) white "middle";
    SRect (x_start + num 120) y_start (num 160) bar_h (num 0) (num 0)
          (Some TEAL_MUTED) (Some TEAL) (num 2);
    SString (x_start + num 200) (y_start + num 28) "PHANTOM ENGAGED"
            "Helvetica-Bold" (num 10) TEAL "middle";
    SString (x_start + num 200) (y_start + num 15) "(Uncertainty)"
            "Helvetica" (num 8) TEAL "middle";
    SRect (x_start + num 280) y_start (num 120) bar_h (num 0) (num 0)
          (Some DARK_BG) (Some default_stroke) (num 0);
    SString (x_start + num 340) (y_start + num 20) "UNENGAGED"
            "Helvetica-Bold" (num 10) TEXT_MUTED "middle" ] |} in
  [ RenderDrawing d (num 0) (num 0) ].

End WhitepaperProof.

(** * insert_callouts.py *)

(** A page of a PDF file: a page of a file that already exists, opaque to
    the tool, or a page laid out by this run. *)
Inductive Page :=
| SourcePage (content : string)
| BuiltPage (r : PageRecord).

(** The file system: the PDF files by path, each the list of its pages. *)
Abbreviation FS := (gmap string (list Page)).

Module InsertCallouts.

Definition VERSION : string := "4.0".
Definition DATE : string := "February 2026".

Definition TEAL : string := "#3B9B8F".
Definition DARK_TEXT : string := "#2C3E50".
Definition LIGHT_TEXT : string := "#8899A6".
Definition CALLOUT_BG : string := "#F0F5F5".
Definition LINK_COLOR : string := "#3B9B8F".

Definition sCalloutNormal : ParagraphStyle :=
  {| style_name := "sCalloutNormal"; fontName := "Helvetica";
     fontSize := dec 105 10; leading := num 15; textColor := DARK_TEXT;
     alignment := TA_LEFT; spaceBefore := num 0; spaceAfter := num 0;
     leftIndent := num 0; bulletIndent := num 0 |}.

Definition sH2 : ParagraphStyle :=
  {| style_name := "sH2"; fontName := "Helvetica-Bold"; fontSize := num 14;
     leading := num 18; textColor := DARK_TEXT; alignment := TA_LEFT;
     spaceBefore := num 0; spaceAfter := num 6;
     leftIndent := num 0; bulletIndent := num 0 |}.

Definition sBody : ParagraphStyle :=
  {| style_name := "sBody"; fontName := "Helvetica"; fontSize := dec 105 10;
     leading := num 15; textColor := DARK_TEXT; alignment := TA_JUSTIFY;
     spaceBefore := num 0; spaceAfter := num 8;
     leftIndent := num 0; bulletIndent := num 0 |}.

(** What the process is started with: the directory of the script
    ([os.path.dirname(os.path.abspath(__file__))]), the working directory
    and [sys.argv]. *)
Record Env := {
  script_dir : string;
  cwd : string;
  argv : list string;
}.

(** [os.path.join] of a directory and a relative path. *)
Definition path_join (dir rel : string) : string := dir +:+ "/" +:+ rel.

(** The file a path names when it is opened: a relative path is taken from
    the working directory. *)
Definition resolve (cwd0 path : string) : string :=
  if String.prefix "/" path then path else path_join cwd0 path.

Definition path_exists (env : Env) (fs : FS) (path : string) : bool :=
  bool_decide (is_Some (fs !! resolve (cwd env) path)).

(** The module-level configuration: [TOOL_URL], [ORIG_PDF] and [OUTPUT]. *)
Record Config := {
  TOOL_URL : string;
  ORIG_PDF : string;
  OUTPUT : string;
}.

Definition configured_ORIG_PDF (env : Env) : string :=
  path_join (script_dir env) "mnt/PhantomEngaged_Lander/Phantom_Engaged_v4.pdf".

Definition configured_OUTPUT (env : Env) : string :=
  path_join (script_dir env) "mnt/PhantomEngaged_Lander/Phantom_Engaged_v5.pdf".

(** The statements run when the module is loaded (lines 24 to 35):
    [if not os.path.exists(ORIG_PDF): ORIG_PDF = ...; OUTPUT = ...]. *)
Definition load_config (env : Env) (fs : FS) : Config :=
  let url := if bool_decide (1 < length (argv env))%nat
             then default EmptyString (argv env !! 1%nat)
             else "https://expert.email/classify" in
  if negb (path_exists env fs (configured_ORIG_PDF env)) then
    {| TOOL_URL := url; ORIG_PDF := "Phantom_Engaged_v4.pdf";
       OUTPUT := "Phantom_Engaged_v5.pdf" |}
  else
    {| TOOL_URL := url; ORIG_PDF := configured_ORIG_PDF env;
       OUTPUT := configured_OUTPUT env |}.

(** [draw_footer(canvas, doc, page_num)]. *)
Definition draw_footer (page_num : Z) : list Event :=
  [ SaveState;
    SetFont "Helvetica" (dec 75 10);
    SetFillColor LIGHT_TEXT;
    DrawString (inch * dec 85 100) (inch * dec 5 10)
      ("Phantom Engaged  •  Position Paper v" +:+ VERSION +:+ "  •  " +:+ DATE +:+
       "   Page " +:+ pretty page_num);
    DrawRightString (W - inch * dec 85 100) (inch * dec 5 10)
      "Chuck Mullaney • Expert.Email";
    SetStrokeColor "#D8DFE3";
    SetLineWidth (dec 4 10);
    Line (inch * dec 85 100) (inch * dec 65 100)
         (W - inch * dec 85 100) (inch * dec 65 100);
    RestoreState ].

Inductive MergeError :=
| FileNotFound (path : string)
| LayoutFailed (e : BuildError)
| NoFirstPage.

Section Merge.
Variable wrap : Wrapper.
Variable table_height : list (list Paragraph) -> list Qc -> Qc.
(** [HexColor.hexval()], a ReportLab method. *)
Variable hexval : string -> string.

Definition dq : string := str1 dquote.

(** [CalloutBox(paragraphs_data, avail_width)] with [padding=14]; a bare
    text takes [sCalloutNormal]. *)
Definition CalloutBox_new (paragraphs_data : list TextItem) (avail_width0 : Qc)
  : CalloutBox * list Event :=
  CalloutBox_init wrap paragraphs_data avail_width0 CALLOUT_BG TEAL (num 14)
                  sCalloutNormal.

(** [make_callout_page(story_items, page_num)]: a one-template document
    whose chrome prints the page number it is given; the result is the page
    list of the buffer it returns. *)
Definition make_callout_page (story_items : list StoryItem) (page_num : Z)
  : result BuildError (list Page) :=
  let margin := inch * dec 85 100 in
  let frame :=
    Frame_default margin (inch * dec 85 100) (W - margin * num 2)
                  (H - inch * dec 16 10) "main" in
  let templates :=
    [ {| pt_id := "callout"; pt_frame := frame;
         onPage := fun _ => draw_footer page_num |} ] in
  let* pages := engine_build wrap table_height templates story_items in
  Ok (map BuiltPage pages).

Definition approach_a_text (url : string) : string :=
  "<b>Apply this framework to your list.</b>  We built a <a href=" +:+ dq +:+ url +:+
  dq +:+ " color=" +:+ dq +:+ hexval LINK_COLOR +:+ dq +:+
  ">free classification tool</a> to help you map your subscribers into the A/B/C " +:+
  "framework described above. There is no opt-in and no paywall — just a " +:+
  "practical starting point for teams ready to move from open-based assumptions " +:+
  "to intent-based classification.".

(** [create_approach_a(avail_w)]. *)
Definition create_approach_a (url : string) (avail_w : Qc) : list StoryItem :=
  [ One (FSpacer (num 1) (num 20));
    One (FCallout (fst (CalloutBox_new [Styled (approach_a_text url) sCalloutNormal]
                                       avail_w))) ].

Definition approach_c_text (url : string) : string :=
  "There is no opt-in, no paywall, and no sales pitch. It exists to help working " +:+
  "marketers put classification discipline into practice.  <a href=" +:+ dq +:+ url +:+
  dq +:+ " color=" +:+ dq +:+ hexval LINK_COLOR +:+ dq +:+
  ">Access the free tool here.</a>".

(** [create_approach_c(avail_w)]. *)
Definition create_approach_c (url : string) (avail_w : Qc) : list StoryItem :=
  [ One (FSpacer (num 1) (num 12));
    One (FTealRule avail_w);
    One (FSpacer (num 1) (num 16));
    One (FParagraph (Para "Put This Into Practice" sH2));
    One (FSpacer (num 1) (num 10));
    One (FParagraph (Para
      ("The ideas in this paper become useful when you apply them to your own " +:+
       "subscriber data. To make that starting point easier, we built a free tool " +:+
       "that walks you through the A/B/C classification framework described in " +:+
       "Section 4.") sBody));
    One (FSpacer (num 1) (num 4));
    One (FParagraph (Para (approach_c_text url) sBody)) ].

(** The body of the assembly loop, for one index [i]:
    [writer.add_page(reader.pages[i])], then the two insertions. *)
Definition assemble_step (reader_pages : list Page) (a_page c_page : Page)
    (writer : list Page) (i : nat) : list Page :=
  match reader_pages !! i with
  | None => writer
  | Some pg =>
      let w1 := writer ++ [pg] in
      let w2 := if bool_decide (i = 3%nat) then w1 ++ [a_page] else w1 in
      if bool_decide (i = 7%nat) then w2 ++ [c_page] else w2
  end.

(** [for i in range(len(reader.pages)): ...]. *)
Definition assemble (reader_pages : list Page) (a_page c_page : Page)
  : list Page :=
  foldl (assemble_step reader_pages a_page c_page) []
        (seq 0 (length reader_pages)).

Definition first_page (pages : list Page) : result MergeError Page :=
  match pages with
  | [] => Err NoFirstPage
  | pg :: _ => Ok pg
  end.

Definition lift_build {A} (r : result BuildError A) : result MergeError A :=
  match r with Ok a => Ok a | Err e => Err (LayoutFailed e) end.

(** [build()]: what is printed, or the error raised, and the file system
    after the run.  Nothing is written before [open(OUTPUT, "wb")]. *)
Definition build (env : Env) (fs : FS) : result MergeError (list string) * FS :=
  let cfg := load_config env fs in
  let run : result MergeError (list Page) :=
    let* reader_pages :=
      match fs !! resolve (cwd env) (ORIG_PDF cfg) with
      | Some pages => Ok pages
      | None => Err (FileNotFound (ORIG_PDF cfg))
      end in
    let avail_w := W - inch * dec 17 10 in
    let a_story := create_approach_a (TOOL_URL cfg) avail_w in
    let* a_pages := lift_build (make_callout_page a_story 3) in
    let* a_page := first_page a_pages in
    let c_story := create_approach_c (TOOL_URL cfg) avail_w in
    let* c_pages := lift_build (make_callout_page c_story 8) in
    let* c_page := first_page c_pages in
    Ok (assemble reader_pages a_page c_page) in
  match run with
  | Err e => (Err e, fs)
  | Ok writer_pages =>
      (Ok [ nl +:+ "  Generated: " +:+ OUTPUT cfg;
            "  URL: " +:+ TOOL_URL cfg;
            "  Original pages preserved. Two callout pages inserted." +:+ nl ],
       <[resolve (cwd env) (OUTPUT cfg) := writer_pages]> fs)
  end.
End Merge.
End InsertCallouts.


(** * Observers and sample inputs *)

(** The call [p.wrap(iw, 10000)]. *)
Definition wrap_event (iw : Qc) (p : Paragraph) : Event :=
  WrapCall p iw (num 10000).

(** A story entry that holds no template-switch marker. *)
Definition marker_free (it : StoryItem) : bool :=
  forallb (fun f => negb (is_marker f)) (item_flowables it).

(** The engine runs on template [t] with no switch pending, and the pages
    it has closed after the first [done] ones are consecutively numbered
    pages of [t]. *)
Definition steady (t : PageTemplate) (done : list PageRecord) (e : Engine)
  : Prop :=
  template e = t ∧ pending e = None ∧
  ∃ rest, finished e = done ++ rest ∧
    page e = (Z.of_nat (length done + length rest) + 1)%Z ∧
    ∀ i r, rest !! i = Some r →
      pr_number r = (Z.of_nat (length done + i) + 1)%Z ∧
      pr_template r = pt_id t ∧ pr_frame r = pt_frame t ∧
      pr_chrome r = onPage t (pr_number r).

(** The texts a chrome routine prints. *)
Definition printed (evs : list Event) : list string :=
  omap (fun e => match e with
                 | DrawString _ _ s => Some s
                 | DrawRightString _ _ s => Some s
                 | _ => None
                 end) evs.

(** The shapes of the drawings a flowable renders, in order. *)
Definition drawing_shapes (evs : list Event) : list Shape :=
  flat_map (fun e => match e with
                     | RenderDrawing d _ _ => dr_shapes d
                     | _ => []
                     end) evs.

(** The horizontal start of the [i]-th shape of the overlap diagram at
    width [w]; for a text this is its anchor. *)
Definition diagram_x (i : nat) (w : Qc) : Qc :=
  default (num 0)
    (shape_x <$> drawing_shapes
                   (PhantomEngaged.OverlapDiagram_draw
                      (PhantomEngaged.OverlapDiagram_init w)) !! i).

Definition sample_table_height : list (list Paragraph) -> list Qc -> Qc :=
  fun data _ => num (Z.of_nat (length data)) * num 30.

Definition sample_hexval : string -> string := fun _ => "0x3b9b8f".

(** A callout of one paragraph at the content width of the generator. *)
Definition sample_texts : list TextItem :=
  [Plain "Phantom Engaged is the name for that uncertainty bucket."].

Definition sample_box : CalloutBox :=
  fst (CalloutBox_init sample_wrap sample_texts (dec 4896 10)
         PhantomEngaged.CALLOUT_BG PhantomEngaged.TEAL (num 14)
         PhantomEngaged.sCalloutItalic).

(** Source documents of five and of nine pages. *)
Definition source_pages (n : nat) : list Page :=
  map (fun i => SourcePage ("page " +:+ pretty i)) (seq 0 n).

Definition sample_env : InsertCallouts.Env :=
  {| InsertCallouts.script_dir := "/opt/lander";
     InsertCallouts.cwd := "/work";
     InsertCallouts.argv :=
       ["insert_callouts.py"; "https://a.example/x?y=1&z=2"] |}.

Definition sample_fs (n : nat) : FS :=
  {[ "/work/Phantom_Engaged_v4.pdf" := source_pages n ]}.





Definition sample_url : string := "https://a.example/x?y=1&z=2".

(** The pages the assembly loop emits for the source pages [ps], the first
    of which has index [i]. *)
Fixpoint spliced (a_page c_page : Page) (i : nat) (ps : list Page) : list Page :=
  match ps with
  | [] => []
  | pg :: ps' =>
      pg :: (if bool_decide (i = 3%nat) then [a_page] else []) ++
            (if bool_decide (i = 7%nat) then [c_page] else []) ++
            spliced a_page c_page (S i) ps'
  end.

(** The merged document in closed form: a payload goes in only when the
    source has its anchor page. *)
Definition merge_output (pages : list Page) (a_page c_page : Page) : list Page :=
  take 4 pages ++
  (if bool_decide (4 ≤ length pages)%nat then [a_page] else []) ++
  take 4 (drop 4 pages) ++
  (if bool_decide (8 ≤ length pages)%nat then [c_page] else []) ++
  drop 8 pages.

(** Where source page [i] stands in a merged document with both payloads. *)
Definition merged_index (i : nat) : nat :=
  if bool_decide (i < 4)%nat then i
  else if bool_decide (i < 8)%nat then (i + 1)%nat else (i + 2)%nat.

(** The width the source gives a shape.  A text is given none: how far it
    runs from its anchor is left to the font, so it counts here as its
    anchor point alone. *)
Definition shape_w (s : Shape) : Qc :=
  match s with
  | SRect _ _ w _ _ _ _ _ _ => w
  | SLine x1 _ x2 _ _ _ _ => x2 - x1
  | SString _ _ _ _ _ _ _ => num 0
  end.

Definition shape_right (s : Shape) : Qc := shape_x s + shape_w s.

(** A rectangle or a line lies between the left and the right edge of a
    drawing of width [w]; for a text, its anchor does. *)
Definition within_width (w : Qc) (s : Shape) : Prop :=
  num 0 ≤ shape_x s ∧ shape_right s ≤ w.

(** The events of the drawing loop of [CalloutBox.draw] for the paragraphs
    [ps], entered with the cursor at [y]. *)
Fixpoint draw_events (wrap : Wrapper) (iw x y : Qc) (ps : list Paragraph)
  : list Event :=
  match ps with
  | [] => []
  | p :: ps' =>
      let ph := snd (wrap p iw (num 10000)) in
      WrapCall p iw (num 10000) :: DrawOn p x (y - ph) ::
      draw_events wrap iw x (y - (ph + num 4)) ps'
  end.

(** The height of a stack of paragraphs wrapped at [iw], each followed by
    [gap]: Σ (wrapped height + gap). *)
Definition stack_height (wrap : Wrapper) (iw ah gap : Qc) (ps : list Paragraph)
  : Qc :=
  foldr (fun p acc => (snd (wrap p iw ah) + gap) + acc) (num 0) ps.

(** A stack of paragraphs seen from below: every paragraph is wrapped and
    then drawn at [x], its lower edge above [y0] by the height of the
    paragraphs that come after it, gaps included. *)
Fixpoint stacked (wrap : Wrapper) (iw ah gap x y0 : Qc) (ps : list Paragraph)
  : list Event :=
  match ps with
  | [] => []
  | p :: ps' =>
      WrapCall p iw ah :: DrawOn p x (y0 + stack_height wrap iw ah gap ps') ::
      stacked wrap iw ah gap x y0 ps'
  end.

(** The sum Σ (wrapped height + 10) of [ModernCallout]. *)
Definition mc_sum (wrap : Wrapper) (iw : Qc) (ps : list Paragraph) : Qc :=
  foldr (fun p acc => (snd (wrap p iw (num 1000)) + num 10) + acc) (num 0) ps.

(** The page list [insert_callouts.build] hands to the writer, or the error
    it stops with: the part of [build] before [open(OUTPUT, "wb")]. *)
Definition merge_pages (wrap : Wrapper)
    (table_height : list (list Paragraph) -> list Qc -> Qc)
    (hexval : string -> string) (env : InsertCallouts.Env) (fs : FS)
  : result InsertCallouts.MergeError (list Page) :=
  let cfg := InsertCallouts.load_config env fs in
  let* reader_pages :=
    match fs !! InsertCallouts.resolve (InsertCallouts.cwd env)
                  (InsertCallouts.ORIG_PDF cfg) with
    | Some pages => Ok pages
    | None => Err (InsertCallouts.FileNotFound (InsertCallouts.ORIG_PDF cfg))
    end in
  let avail_w := W - inch * dec 17 10 in
  let a_story :=
    InsertCallouts.create_approach_a wrap hexval (InsertCallouts.TOOL_URL cfg)
                                     avail_w in
  let* a_pages :=
    InsertCallouts.lift_build
      (InsertCallouts.make_callout_page wrap table_height a_story 3) in
  let* a_page := InsertCallouts.first_page a_pages in
  let c_story :=
    InsertCallouts.create_approach_c hexval (InsertCallouts.TOOL_URL cfg)
                                     avail_w in
  let* c_pages :=
    InsertCallouts.lift_build
      (InsertCallouts.make_callout_page wrap table_height c_story 8) in
  let* c_page := InsertCallouts.first_page c_pages in
  Ok (InsertCallouts.assemble reader_pages a_page c_page).

(** A path that ends in the given file-name tail. *)
Definition ends_with (tail s : string) : Prop := ∃ x, s = x +:+ tail.

(** The one paragraph of the sample callout. *)
Definition sample_para : Paragraph :=
  Para "Phantom Engaged is the name for that uncertainty bucket."
       PhantomEngaged.sCalloutItalic.

(** The call [p.wrap(iw, 1000)] of the whitepaper callouts. *)
Definition mc_wrap_event (iw : Qc) (p : Paragraph) : Event :=
  WrapCall p iw (num 1000).

(** A file system with a source at the configured place and another one in
    the working directory. *)
Definition sample_fs_both : FS :=
  <[ "/opt/lander/mnt/PhantomEngaged_Lander/Phantom_Engaged_v4.pdf"
       := source_pages 9 ]> (sample_fs 5).


(** * Properties *)

(** ** Callout boxes: measuring and drawing *)

Section CalloutFacts.
Variable wrap : Wrapper.

Lemma num_zero : num 0 = 0.
Proof. reflexivity. Qed.

Lemma measure_loop_from iw ps acc :
  foldl (measure_step wrap iw) acc ps =
  (fst acc + sum_wrapped wrap iw ps, snd acc ++ map (wrap_event iw) ps).
Proof.
  revert acc. induction ps as [|p ps IH]; intros [t log]; simpl.
  - f_equal; [rewrite num_zero; ring | by rewrite app_nil_r].
  - rewrite IH. simpl. f_equal; [ring | by rewrite <- app_assoc].
Qed.

Lemma measure_loop_spec iw ps :
  measure_loop wrap iw ps = (sum_wrapped wrap iw ps, map (wrap_event iw) ps).
Proof.
  unfold measure_loop. rewrite measure_loop_from. simpl. f_equal.
  rewrite num_zero. ring.
Qed.

Lemma wrap_calls_app l1 l2 :
  wrap_calls (l1 ++ l2) = wrap_calls l1 ++ wrap_calls l2.
Proof. unfold wrap_calls. apply List.filter_app. Qed.

Lemma draw_loop_from iw x ps acc :
  fst (foldl (draw_step wrap iw x) acc ps) = fst acc - sum_wrapped wrap iw ps ∧
  wrap_calls (snd (foldl (draw_step wrap iw x) acc ps)) =
    wrap_calls (snd acc) ++ map (wrap_event iw) ps ∧
  length (drawn_at (snd (foldl (draw_step wrap iw x) acc ps))) =
    (length (drawn_at (snd acc)) + length ps)%nat.
Proof.
  revert acc. induction ps as [|p ps IH]; intros [y evs]; simpl.
  - split; [rewrite num_zero; ring|]. split; [by rewrite app_nil_r | lia].
  - destruct (IH (draw_step wrap iw x (y, evs) p)) as (Hy & Hw & Hd).
    rewrite Hy, Hw, Hd. simpl. split; [ring|]. split.
    + rewrite wrap_calls_app. simpl. by rewrite <- app_assoc.
    + unfold drawn_at. rewrite omap_app, length_app. simpl. lia.
Qed.

Lemma CalloutBox_init_eq texts w bg0 border0 pad style :
  let ps := map (make_para style) texts in
  let iw := w - num 4 - pad * num 2 in
  CalloutBox_init wrap texts w bg0 border0 pad style =
  ({| bg := bg0; border_color := border0; padding := pad; bar_w := num 4;
      avail_width := w; paras := ps; inner_w := iw;
      box_h := sum_wrapped wrap iw ps + pad * num 2 - num 4;
      width := w;
      height := sum_wrapped wrap iw ps + pad * num 2 - num 4 + num 8 |},
   map (wrap_event iw) ps).
Proof.
  intros ps iw. unfold CalloutBox_init. fold ps iw.
  by rewrite measure_loop_spec.
Qed.

Lemma CalloutBox_draw_facts b :
  fst (CalloutBox_draw_run wrap b) =
    y_base + box_h b - padding b - sum_wrapped wrap (inner_w b) (paras b) ∧
  wrap_calls (CalloutBox_draw wrap b) = map (wrap_event (inner_w b)) (paras b) ∧
  length (drawn_at (CalloutBox_draw wrap b)) = length (paras b).
Proof.
  unfold CalloutBox_draw, CalloutBox_draw_run, draw_loop. cbn [fst snd].
  match goal with |- context [foldl ?f ?a ?l] =>
    destruct (draw_loop_from (inner_w b) (bar_w b + padding b) l a)
      as (Hy & Hw & Hd) end.
  split; [exact Hy|]. split.
  - rewrite wrap_calls_app, Hw. reflexivity.
  - unfold drawn_at in *. rewrite omap_app, length_app, Hd. reflexivity.
Qed.

Lemma stack_height_app ah gap iw ps1 ps2 :
  stack_height wrap iw ah gap (ps1 ++ ps2)
  = stack_height wrap iw ah gap ps1 + stack_height wrap iw ah gap ps2.
Proof.
  induction ps1 as [|p ps1 IH]; simpl.
  - rewrite num_zero. ring.
  - rewrite IH. ring.
Qed.

Lemma stack_height_split ah gap iw ps k p :
  ps !! k = Some p →
  stack_height wrap iw ah gap ps
  = stack_height wrap iw ah gap (take k ps)
    + ((snd (wrap p iw ah) + gap) + stack_height wrap iw ah gap (drop (S k) ps)).
Proof.
  intros Hk. rewrite <- (take_drop_middle ps k p Hk) at 1.
  by rewrite stack_height_app.
Qed.

Lemma stacked_lookup ah gap iw x y0 ps k p :
  ps !! k = Some p →
  stacked wrap iw ah gap x y0 ps !! (2 * k + 1)%nat
  = Some (DrawOn p x (y0 + stack_height wrap iw ah gap (drop (S k) ps))).
Proof.
  revert k. induction ps as [|q ps IH]; intros k Hk; [done|].
  destruct k as [|k].
  - injection Hk as ->. reflexivity.
  - replace (2 * S k + 1)%nat with (S (S (2 * k + 1))) by lia.
    exact (IH k Hk).
Qed.

Lemma draw_loop_stacked iw x ps acc :
  snd (foldl (draw_step wrap iw x) acc ps)
  = snd acc ++
    stacked wrap iw (num 10000) (num 4) x
      (fst acc - stack_height wrap iw (num 10000) (num 4) ps + num 4) ps.
Proof.
  revert acc. induction ps as [|p ps IH]; intros [y evs]; simpl.
  - by rewrite app_nil_r.
  - rewrite IH. simpl. rewrite <- app_assoc. simpl.
    do 3 f_equal; f_equal; ring.
Qed.

(** C1 (amended).  Building a callout wraps each of its paragraphs once, at
    the inner width, and keeps that width and the total height, not the
    heights of the blocks.  Drawing wraps every paragraph a second time, at
    the stored inner width, and draws it right after its wrap, at bar +
    padding from the left.  Since both passes wrap at the same width, the
    re-measured blocks fill the stored box: block [k] has its lower edge
    above the bottom padding by the blocks after it and its upper edge below
    the top padding by the blocks before it, so the last block ends, and
    the cursor stops, exactly one padding above the bottom of the box. *)
Theorem callout_draw_wraps_again texts w bg0 border0 pad style :
  let b := fst (CalloutBox_init wrap texts w bg0 border0 pad style) in
  let below k :=
    stack_height wrap (inner_w b) (num 10000) (num 4) (drop (S k) (paras b)) in
  let above k :=
    stack_height wrap (inner_w b) (num 10000) (num 4) (take k (paras b)) in
  snd (CalloutBox_init wrap texts w bg0 border0 pad style)
    = map (wrap_event (inner_w b)) (paras b) ∧
  wrap_calls (CalloutBox_draw wrap b) = map (wrap_event (inner_w b)) (paras b) ∧
  length (drawn_at (CalloutBox_draw wrap b)) = length (paras b) ∧
  fst (CalloutBox_draw_run wrap b) = padding b ∧
  CalloutBox_draw wrap b =
    [ SetFillColor bg0; RoundRect (num 0) y_base w (box_h b) (num 2);
      SetFillColor border0; Rect (num 0) y_base (num 4) (box_h b) ] ++
    stacked wrap (inner_w b) (num 10000) (num 4) (num 4 + pad) (y_base + pad)
            (paras b) ∧
  (∀ k p, paras b !! k = Some p →
     CalloutBox_draw wrap b !! (2 * k + 5)%nat
       = Some (DrawOn p (bar_w b + padding b) (y_base + padding b + below k)) ∧
     (y_base + padding b + below k) + snd (wrap p (inner_w b) (num 10000))
       = y_base + box_h b - padding b - above k).
Proof.
  intros b below above. subst b below above.
  rewrite CalloutBox_init_eq. cbn [fst snd].
  match goal with |- context [CalloutBox_draw wrap ?b] =>
    destruct (CalloutBox_draw_facts b) as (Hy & Hw & Hd) end.
  split; [reflexivity|]. split; [exact Hw|]. split; [exact Hd|].
  cbn [box_h padding inner_w paras bar_w] in *.
  set (iw := w - num 4 - pad * num 2) in *.
  set (ps := map (make_para style) texts) in *.
  assert (∀ bh,
    bh = sum_wrapped wrap iw ps + pad * num 2 - num 4 →
    snd (draw_loop wrap iw (num 4 + pad) (y_base + bh - pad) ps)
    = stacked wrap iw (num 10000) (num 4) (num 4 + pad) (y_base + pad) ps)
    as Hstack.
  { intros bh ->. unfold draw_loop. rewrite draw_loop_stacked. cbn [fst snd app].
    f_equal. change (stack_height wrap iw (num 10000) (num 4) ps)
      with (sum_wrapped wrap iw ps).
    unfold y_base. generalize (sum_wrapped wrap iw ps). intros S. qc_arith. }
  assert (CalloutBox_draw wrap
            {| bg := bg0; border_color := border0; padding := pad;
               bar_w := num 4; avail_width := w; paras := ps; inner_w := iw;
               box_h := sum_wrapped wrap iw ps + pad * num 2 - num 4;
               width := w;
               height := sum_wrapped wrap iw ps + pad * num 2 - num 4 + num 8 |}
          = [ SetFillColor bg0;
              RoundRect (num 0) y_base w
                (sum_wrapped wrap iw ps + pad * num 2 - num 4) (num 2);
              SetFillColor border0;
              Rect (num 0) y_base (num 4)
                (sum_wrapped wrap iw ps + pad * num 2 - num 4) ] ++
            stacked wrap iw (num 10000) (num 4) (num 4 + pad) (y_base + pad) ps)
    as Hdraw.
  { unfold CalloutBox_draw, CalloutBox_draw_run.
    cbn [fst snd box_h padding inner_w paras bar_w bg border_color avail_width].
    by rewrite (Hstack _ eq_refl). }
  split.
  { rewrite Hy. unfold y_base. generalize (sum_wrapped wrap iw ps).
    intros S. qc_arith. }
  split; [exact Hdraw|].
  intros k p Hk. split.
  - rewrite Hdraw.
    replace (2 * k + 5)%nat with (4 + (2 * k + 1))%nat by lia.
    cbn [app lookup list_lookup Nat.add].
    exact (stacked_lookup _ _ _ _ _ _ _ _ Hk).
  - change (sum_wrapped wrap iw ps)
      with (stack_height wrap iw (num 10000) (num 4) ps).
    rewrite (stack_height_split _ _ _ _ _ _ Hk).
    generalize (stack_height wrap iw (num 10000) (num 4) (take k ps)).
    generalize (stack_height wrap iw (num 10000) (num 4) (drop (S k) ps)).
    generalize (snd (wrap p iw (num 10000))).
    unfold y_base. intros h lo hi. qc_arith.
Qed.

(** C2 (amended).  The box height kept at construction is
    Σ (wrapped height + 4) + 2 × padding - 4 with the blocks wrapped at
    avail_width - bar - 2 × padding.  The height the flowable reports is 8
    more: the box is painted 4 above the bottom of the flowable, with that
    height, and 4 is left above it.  Drawing moves the text cursor down by
    exactly the sum. *)
Theorem callout_height_formula texts w bg0 border0 pad style :
  let b := fst (CalloutBox_init wrap texts w bg0 border0 pad style) in
  bar_w b = num 4 ∧ padding b = pad ∧
  inner_w b = w - bar_w b - num 2 * padding b ∧
  box_h b = sum_wrapped wrap (inner_w b) (paras b) + num 2 * padding b - num 4 ∧
  height b = box_h b + num 8 ∧
  CalloutBox_draw wrap b !! 1%nat
    = Some (RoundRect (num 0) (num 4) w (box_h b) (num 2)) ∧
  (y_base + box_h b - padding b) - fst (CalloutBox_draw_run wrap b)
    = sum_wrapped wrap (inner_w b) (paras b).
Proof.
  intros b. subst b. rewrite CalloutBox_init_eq. cbn [fst snd].
  match goal with |- context [CalloutBox_draw wrap ?b] =>
    destruct (CalloutBox_draw_facts b) as (Hy & _) end.
  rewrite Hy. cbn [box_h padding inner_w paras bar_w height].
  generalize (sum_wrapped wrap (w - num 4 - pad * num 2) (map (make_para style) texts)).
  intros S.
  split; [reflexivity|]. split; [reflexivity|]. split; [qc_arith|].
  split; [qc_arith|]. split; [reflexivity|]. split; [reflexivity|].
  unfold y_base. qc_arith.
Qed.

End CalloutFacts.

(** C1, as stated, fails: drawing the sample callout calls [wrap] again. *)
Lemma callout_draw_wraps_again_cex :
  wrap_calls (CalloutBox_draw sample_wrap sample_box) ≠ [].
Proof. vm_compute. discriminate. Qed.

(** C2, as stated, fails: the height of the sample callout is 51, the
    formula gives 43. *)
Lemma callout_height_formula_cex :
  height sample_box ≠
  sum_wrapped sample_wrap (inner_w sample_box) (paras sample_box)
    + num 2 * padding sample_box - num 4.
Proof.
  intros Heq. apply (f_equal this) in Heq. vm_compute in Heq. discriminate.
Qed.

(** ** The page engine on a stream without switch markers *)

Section EngineFacts.
Variable wrap : Wrapper.
Variable table_height : list (list Paragraph) -> list Qc -> Qc.
Variable tpls : list PageTemplate.
Variable t : PageTemplate.
Variable done : list PageRecord.

Lemma steady_end_page e :
  steady t done e → steady t done (end_page e).
Proof.
  intros (Ht & Hp & rest & Hf & Hn & Hall).
  split; [|split].
  - simpl. unfold next_template. by rewrite Hp.
  - reflexivity.
  - exists (rest ++ [{| pr_number := page e;
                       pr_template := pt_id (template e);
                       pr_frame := pt_frame (template e);
                       pr_chrome := onPage (template e) (page e);
                       pr_flowables := on_page e |}]).
    split; [|split].
    + simpl. rewrite Hf. by rewrite <- app_assoc.
    + simpl. rewrite Hn, length_app. simpl. lia.
    + intros i r Hi. apply lookup_app_Some in Hi as [Hi | [Hle Hi]].
      * by apply Hall.
      * destruct (i - length rest)%nat as [|k] eqn:Hk; [|done].
        simpl in Hi. injection Hi as <-. simpl. rewrite Ht.
        assert (i = length rest) as -> by lia.
        split; [exact Hn|]. done.
Qed.

Lemma steady_add h f e :
  steady t done e → steady t done (add_flowable h f e).
Proof. intros (Ht & Hp & Hrest). by split; [|split]. Qed.

Lemma steady_place f e :
  steady t done e → steady t done (place wrap table_height f e).
Proof.
  intros He. unfold place. case_bool_decide.
  - by apply steady_add.
  - destruct (on_page e).
    + by apply steady_add.
    + by apply steady_add, steady_end_page.
Qed.

Lemma steady_step f e :
  is_marker f = false → steady t done e →
  ∃ e', step wrap table_height tpls e f = Ok e' ∧ steady t done e'.
Proof.
  intros Hm He. destruct f; try discriminate; simpl;
    eauto using steady_place, steady_end_page.
Qed.

Lemma steady_steps fs e :
  forallb (fun f => negb (is_marker f)) fs = true → steady t done e →
  ∃ e', foldM (step wrap table_height tpls) e fs = Ok e' ∧ steady t done e'.
Proof.
  revert e. induction fs as [|f fs IH]; intros e Hfs He; simpl in *.
  - eauto.
  - apply andb_prop in Hfs as [Hf Hfs]. apply negb_true_iff in Hf.
    destruct (steady_step f e Hf He) as (e1 & -> & He1). simpl.
    by apply IH.
Qed.

Lemma steady_step_item it e :
  marker_free it = true → steady t done e →
  ∃ e', step_item wrap table_height tpls e it = Ok e' ∧ steady t done e'.
Proof.
  intros Hm He. destruct it as [f | fs]; simpl.
  - unfold marker_free in Hm. simpl in Hm. rewrite andb_true_r in Hm.
    apply negb_true_iff in Hm. by apply steady_step.
  - apply steady_steps; [exact Hm|].
    repeat case_bool_decide; auto using steady_end_page.
Qed.

Lemma steady_story story e :
  forallb marker_free story = true → steady t done e →
  ∃ e', foldM (step_item wrap table_height tpls) e story = Ok e' ∧
        steady t done e'.
Proof.
  revert e. induction story as [|it story IH]; intros e Hs He; simpl in *.
  - eauto.
  - apply andb_prop in Hs as [Hit Hs].
    destruct (steady_step_item it e Hit He) as (e1 & -> & He1). simpl.
    by apply IH.
Qed.

End EngineFacts.

Lemma place_on_empty_page wrap table_height f e :
  on_page e = [] →
  place wrap table_height f e =
  add_flowable (flow_height wrap table_height (frame_avail_width (template e)) f)
               f e.
Proof. intros He. unfold place. rewrite He. by case_bool_decide. Qed.

(** ** generate_phantom_engaged.py: templates, page numbers and links *)

Section PhantomFacts.
Variable argv : list string.
Variable wrap : Wrapper.
Variable table_height : list (list Paragraph) -> list Qc -> Qc.
Variable hexval : string -> string.

Lemma story_head :
  PhantomEngaged.story argv wrap hexval =
  One (FSpacer (num 1) H) :: One FPageBreak ::
  drop 2 (PhantomEngaged.story argv wrap hexval).
Proof. reflexivity. Qed.

Lemma final_story_eq :
  PhantomEngaged.final_story argv wrap hexval =
  One (FSpacer (num 1) H) :: One (FNextPageTemplate "Content") ::
  One FPageBreak :: drop 2 (PhantomEngaged.story argv wrap hexval).
Proof. reflexivity. Qed.

Lemma story_tail_marker_free :
  forallb marker_free (drop 2 (PhantomEngaged.story argv wrap hexval)) = true.
Proof. vm_compute. reflexivity. Qed.

Lemma final_story_markers :
  markers (PhantomEngaged.final_story argv wrap hexval)
  = [FNextPageTemplate "Content"].
Proof. vm_compute. reflexivity. Qed.

Lemma find_content_template :
  find_template PhantomEngaged.PhantomDoc_templates "Content" =
  Some {| pt_id := "Content"; pt_frame := PhantomEngaged.frame;
          onPage := PhantomEngaged.ContentPage_draw |}.
Proof. reflexivity. Qed.

(** C7.  The story handed to the engine starts with the cover spacer,
    followed at once by the only template-switch marker of the stream, which
    names Content.  The build succeeds; its first page is page 1 on the Cover
    template and every later page, of which there is at least one, is a
    consecutively numbered page on the Content frame with the Content
    chrome. *)
Theorem template_router_cover_then_content :
  PhantomEngaged.final_story argv wrap hexval !! 0%nat
    = Some (One (FSpacer (num 1) H)) ∧
  PhantomEngaged.final_story argv wrap hexval !! 1%nat
    = Some (One (FNextPageTemplate "Content")) ∧
  markers (PhantomEngaged.final_story argv wrap hexval)
    = [FNextPageTemplate "Content"] ∧
  ∃ cover rest,
    PhantomEngaged.build argv wrap table_height hexval = Ok (cover :: rest) ∧
    pr_number cover = 1%Z ∧ pr_template cover = "Cover" ∧
    pr_frame cover = PhantomEngaged.cover_frame ∧
    pr_chrome cover = PhantomEngaged.CoverPage_draw 1 ∧
    rest ≠ [] ∧
    ∀ i r, rest !! i = Some r →
      pr_number r = (Z.of_nat i + 2)%Z ∧ pr_template r = "Content" ∧
      pr_frame r = PhantomEngaged.frame ∧
      pr_chrome r = PhantomEngaged.ContentPage_draw (Z.of_nat i + 2).
Proof.
  split; [reflexivity|]. split; [reflexivity|].
  split; [apply final_story_markers|].
  unfold PhantomEngaged.build, engine_build.
  rewrite final_story_eq.
  change PhantomEngaged.PhantomDoc_templates with
    ({| pt_id := "Cover"; pt_frame := PhantomEngaged.cover_frame;
        onPage := PhantomEngaged.CoverPage_draw |}
     :: tail PhantomEngaged.PhantomDoc_templates) at 1.
  cbv beta iota.
  set (t0 := {| pt_id := "Cover"; pt_frame := PhantomEngaged.cover_frame;
                onPage := PhantomEngaged.CoverPage_draw |}).
  set (tc := {| pt_id := "Content"; pt_frame := PhantomEngaged.frame;
                onPage := PhantomEngaged.ContentPage_draw |}).
  cbn [foldM rbind step_item step].
  rewrite place_on_empty_page by reflexivity.
  rewrite find_content_template. fold tc. cbn [rbind].
  set (e3 := end_page _).
  set (cover := {| pr_number := 1; pr_template := "Cover";
                   pr_frame := PhantomEngaged.cover_frame;
                   pr_chrome := PhantomEngaged.CoverPage_draw 1;
                   pr_flowables := [FSpacer (num 1) H] |}).
  assert (steady tc [cover] e3) as He3.
  { split; [reflexivity|]. split; [reflexivity|]. exists [].
    split; [reflexivity|]. split; [reflexivity|]. intros i r Hi. done. }
  destruct (steady_story wrap table_height PhantomEngaged.PhantomDoc_templates
              tc [cover] _ e3 story_tail_marker_free He3) as (e' & -> & He').
  cbn [rbind].
  destruct He' as (Ht' & Hp' & rest' & Hf' & Hn' & Hall').
  exists cover, (rest' ++ [{| pr_number := page e';
                             pr_template := pt_id (template e');
                             pr_frame := pt_frame (template e');
                             pr_chrome := onPage (template e') (page e');
                             pr_flowables := on_page e' |}]).
  split.
  { simpl. rewrite Hf'. reflexivity. }
  split; [reflexivity|]. split; [reflexivity|]. split; [reflexivity|].
  split; [reflexivity|]. split.
  { intros Hnil. apply (f_equal length) in Hnil.
    rewrite length_app in Hnil. simpl in Hnil. lia. }
  intros i r Hi. apply lookup_app_Some in Hi as [Hi | [Hle Hi]].
  - destruct (Hall' i r Hi) as (Hnum & Htpl & Hfr & Hch).
    rewrite Hch, Hnum. simpl. split; [lia|]. split; [done|]. split; [done|].
    f_equal. lia.
  - destruct (i - length rest')%nat as [|k] eqn:Hk; [|done].
    simpl in Hi. injection Hi as <-. simpl. rewrite Ht', Hn'. simpl.
    assert (i = length rest') as -> by lia.
    split; [lia|]. split; [done|]. split; [done|]. f_equal. lia.
Qed.

End PhantomFacts.

(** ** Page numbers in the footers *)

(** C5 (amended).  The content chrome of [generate_phantom_engaged.py]
    prints the page counter minus 1, so the page with counter 2 is labelled
    page 1.  The content chrome of [generate_whitepaper_full.py] and of
    [generate_whitepaper_proof.py] prints the page counter itself. *)
Theorem content_footer_page_number :
  (∀ n : Z, printed (PhantomEngaged.ContentPage_draw n) =
     [PhantomEngaged.footer_prefix +:+ pretty (n - 1)%Z;
      "Chuck Mullaney • Expert.Email"]) ∧
  printed (PhantomEngaged.ContentPage_draw 2) !! 0%nat =
    Some "Phantom Engaged  •  Position Paper v4.0  •  February 2026   Page 1" ∧
  (∀ n : Z, printed (WhitepaperFull.draw_content_page n) =
     ["Phantom Engaged Position Paper v5.0";
      "Page " +:+ pretty n +:+ " | Expert.Email"]) ∧
  (∀ n : Z, printed (WhitepaperProof.draw_content_page n) =
     ["Phantom Engaged Position Paper";
      "Page " +:+ pretty n +:+ " | Expert.Email"]).
Proof. repeat split. Qed.

(** C5, as stated, fails: on the page with counter 2, the first content
    page, [generate_whitepaper_full.py] prints page 2, not page 1. *)
Lemma content_footer_page_number_cex :
  printed (WhitepaperFull.draw_content_page 2) !! 1%nat
    = Some "Page 2 | Expert.Email" ∧
  printed (WhitepaperFull.draw_content_page 2) !! 1%nat
    ≠ Some ("Page " +:+ pretty (2 - 1)%Z +:+ " | Expert.Email").
Proof. split; [reflexivity | vm_compute; discriminate]. Qed.

(** ** The overlap diagram *)

(** C9 (amended).  At every width [w] the main box is [0.82 w] wide with
    its left edge at [w/2 - 0.41 w], the dashed divider stands at 0.72 of the
    box width from that edge, which is [0.6804 w], and the centred labels,
    the arrow and the three subtitle lines sit at [w/2].  The two inner
    labels are inset by a fixed 20 from the box edges and the white overlay
    ends a fixed 4 before the right edge; every vertical position, the box
    height 38 and the corner radius 4 are constants.  The drawing is as wide
    as the flowable and 120 high.  A diagram draws the same shapes whenever
    it has the same width: [draw] reads the width, and the height only for
    the size of the drawing. *)
Theorem overlap_diagram_geometry (w : Qc) :
  PhantomEngaged.OverlapDiagram_draw (PhantomEngaged.OverlapDiagram_init w) =
    [ RenderDrawing
        {| dr_width := w; dr_height := num 120; dr_shapes :=
           [ SRect (w / num 2 - dec 41 100 * w) (num 28) (dec 82 100 * w) (num 38)
                   (num 4) (num 4) (Some "#D0EDEA") None (num 0);
             SRect (dec 6804 10000 * w) (dec 286 10)
                   (dec 2296 10000 * w - num 4) (dec 368 10)
                   (num 0) (num 0) (Some PhantomEngaged.white) None (num 0);
             SRect (w / num 2 - dec 41 100 * w) (num 28) (dec 82 100 * w) (num 38)
                   (num 4) (num 4) None (Some PhantomEngaged.TEAL) (dec 12 10);
             SLine (dec 6804 10000 * w) (num 28) (dec 6804 10000 * w) (num 66)
                   PhantomEngaged.LIGHT_TEXT (num 1) [num 4; num 3];
             SString (dec 9 100 * w + num 20) (num 44) "ENGAGED"
                     "Helvetica-Bold" (num 10) PhantomEngaged.DARK_TEXT "start";
             SString (dec 91 100 * w - num 20) (num 44) "UNENGAGED"
                     "Helvetica-Bold" (num 10) PhantomEngaged.DARK_TEXT "end";
             SString (w / num 2) (num 84) "PHANTOM ENGAGED"
                     "Helvetica-Bold" (num 9) PhantomEngaged.TEAL "middle";
             SLine (w / num 2) (num 82) (w / num 2) (num 68)
                   PhantomEngaged.DARK_TEXT (dec 8 10) [];
             SString (w / num 2) (num 20) "Looks engaged in reports,"
                     "Helvetica" (num 8) PhantomEngaged.LIGHT_TEXT "middle";
             SString (w / num 2) (num 10) "but attention is uncertain"
                     "Helvetica" (num 8) PhantomEngaged.LIGHT_TEXT "middle";
             SString (w / num 2) (- num 4)
                     ("Privacy protections increase the overlap between what " +:+
                      "we can measure and what is real.")
                     "Helvetica-Oblique" (dec 75 10) PhantomEngaged.MID_TEXT
                     "middle" ] |}
        (num 0) (num 0) ] ∧
  diagram_x 3 w = (w / num 2 - dec 41 100 * w) + dec 72 100 * (dec 82 100 * w) ∧
  diagram_x 6 w = w / num 2 ∧
  diagram_x 4 w = diagram_x 0 w + num 20 ∧
  diagram_x 5 w = diagram_x 0 w + dec 82 100 * w - num 20 ∧
  (∀ d, PhantomEngaged.OverlapDiagram_draw d =
        [ RenderDrawing
            {| dr_width := od_width d; dr_height := od_height d;
               dr_shapes :=
                 drawing_shapes
                   (PhantomEngaged.OverlapDiagram_draw
                      (PhantomEngaged.OverlapDiagram_init (od_width d))) |}
            (num 0) (num 0) ]).
Proof.
  split.
  { unfold PhantomEngaged.OverlapDiagram_draw, PhantomEngaged.OverlapDiagram_init.
    cbn [od_width od_height].
    do 2 f_equal. repeat (f_equal; try reflexivity; try qc_arith). }
  unfold diagram_x. simpl.
  split; [qc_arith|]. split; [reflexivity|].
  split; [qc_arith|]. split; [qc_arith|].
  intros d. reflexivity.
Qed.

(** C9, as stated, fails: the position of the ENGAGED label is not a
    fraction of the width.  It is 29 at width 100 and 38 at width 200. *)
Lemma overlap_diagram_geometry_cex :
  diagram_x 4 (num 100) = num 29 ∧ diagram_x 4 (num 200) = num 38 ∧
  ¬ ∃ k : Qc, ∀ w : Qc, diagram_x 4 w = k * w.
Proof.
  split; [apply Qc_is_canon; vm_compute; reflexivity|].
  split; [apply Qc_is_canon; vm_compute; reflexivity|].
  intros [k Hk]. specialize (Hk (num 0)).
  replace (k * num 0) with (num 0) in Hk by (rewrite num_zero; ring).
  apply (f_equal this) in Hk. vm_compute in Hk. discriminate.
Qed.

(** ** The tracking link *)

Section LinkFacts.
Variable wrap : Wrapper.
Variable hexval : string -> string.



End LinkFacts.


(** ** insert_callouts.py: the merge *)

Lemma engine_build_marker_free wrap table_height t0 tpls story :
  forallb marker_free story = true →
  ∃ first rest,
    engine_build wrap table_height (t0 :: tpls) story = Ok (first :: rest) ∧
    pr_number first = 1%Z ∧ pr_template first = pt_id t0 ∧
    pr_chrome first = onPage t0 1.
Proof.
  intros Hs. unfold engine_build.
  assert (steady t0 [] (engine_start t0)) as H0.
  { split; [reflexivity|]. split; [reflexivity|]. exists [].
    split; [reflexivity|]. split; [reflexivity|]. intros i r Hi. done. }
  destruct (steady_story wrap table_height (t0 :: tpls) t0 [] story _ Hs H0)
    as (e' & -> & He').
  cbn [rbind]. apply steady_end_page in He'.
  destruct He' as (_ & _ & rest & Hf & Hn & Hall).
  rewrite Hf. simpl in *.
  destruct rest as [|first rest].
  - by destruct (finished e').
  - exists first, rest. split; [reflexivity|].
    destruct (Hall 0%nat first eq_refl) as (Hnum & Htpl & _ & Hch).
    rewrite Hch, Hnum. done.
Qed.

Lemma spliced_late a c i ps :
  (8 ≤ i)%nat → spliced a c i ps = ps.
Proof.
  revert i. induction ps as [|pg ps IH]; intros i Hi; simpl; [done|].
  rewrite !bool_decide_eq_false_2 by lia. simpl. f_equal. apply IH. lia.
Qed.

Lemma spliced_closed a c ps :
  spliced a c 0 ps = merge_output ps a c.
Proof.
  unfold merge_output.
  do 8 (destruct ps as [|? ps]; [reflexivity|]).
  simpl. rewrite spliced_late by lia. by rewrite drop_0.
Qed.

Lemma assemble_loop a c pre suf acc :
  foldl (InsertCallouts.assemble_step (pre ++ suf) a c) acc
        (seq (length pre) (length suf))
  = acc ++ spliced a c (length pre) suf.
Proof.
  revert pre acc. induction suf as [|pg suf IH]; intros pre acc; simpl.
  - by rewrite app_nil_r.
  - unfold InsertCallouts.assemble_step at 2.
    rewrite list_lookup_middle by reflexivity.
    rewrite (cons_middle pg pre suf), app_assoc.
    replace (S (length pre)) with (length (pre ++ [pg]))
      by (rewrite length_app; simpl; lia).
    rewrite IH. rewrite length_app. simpl.
    replace (length pre + 1)%nat with (S (length pre)) by lia.
    repeat case_bool_decide; subst; try lia; simpl;
      rewrite <- ?app_assoc; reflexivity.
Qed.

Lemma assemble_closed pages a c :
  InsertCallouts.assemble pages a c = merge_output pages a c.
Proof.
  transitivity ([] ++ spliced a c 0 pages).
  - exact (assemble_loop a c [] pages []).
  - apply spliced_closed.
Qed.

Lemma merge_output_long pages a c :
  (8 ≤ length pages)%nat →
  merge_output pages a c =
    take 4 pages ++ [a] ++ take 4 (drop 4 pages) ++ [c] ++ drop 8 pages ∧
  length (merge_output pages a c) = (length pages + 2)%nat ∧
  (∀ i pg, pages !! i = Some pg →
           merge_output pages a c !! merged_index i = Some pg) ∧
  merge_output pages a c !! 3%nat = pages !! 3%nat ∧
  merge_output pages a c !! 4%nat = Some a ∧
  merge_output pages a c !! 8%nat = pages !! 7%nat ∧
  merge_output pages a c !! 9%nat = Some c.
Proof.
  intros Hlen. unfold merge_output.
  rewrite !bool_decide_eq_true_2 by lia.
  do 8 (destruct pages as [|? pages]; [simpl in Hlen; lia|]).
  split; [reflexivity|]. split; [simpl; rewrite drop_0; lia|].
  split; [|by repeat split].
  intros i pg Hi.
  do 8 (destruct i as [|i]; [exact Hi|]).
  unfold merged_index. rewrite !bool_decide_eq_false_2 by lia.
  replace (S (S (S (S (S (S (S (S i))))))) + 2)%nat
    with (S (S (S (S (S (S (S (S (S (S i)))))))))) by lia.
  simpl in *. by rewrite drop_0.
Qed.

Lemma merge_output_short pages a c :
  (length pages < 8)%nat →
  merge_output pages a c =
    take 4 pages ++
    (if bool_decide (4 ≤ length pages)%nat then [a] else []) ++ drop 4 pages ∧
  length (merge_output pages a c) =
    (length pages + (if bool_decide (4 ≤ length pages)%nat then 1 else 0))%nat ∧
  (c ∉ pages → c ≠ a → c ∉ merge_output pages a c).
Proof.
  intros Hlen. unfold merge_output.
  rewrite (bool_decide_eq_false_2 (8 ≤ _)%nat) by lia.
  rewrite (drop_ge pages 8) by lia.
  rewrite (take_ge (drop 4 pages)) by (rewrite length_drop; lia).
  rewrite !app_nil_r.
  split; [reflexivity|]. split.
  - rewrite !length_app, length_take, length_drop.
    case_bool_decide; cbn [length]; lia.
  - intros Hc Hca Hin.
    apply elem_of_app in Hin as [Hin | Hin].
    + apply Hc. by apply (subseteq_take 4 pages).
    + apply elem_of_app in Hin as [Hin | Hin].
      * case_bool_decide; [|by apply elem_of_nil in Hin].
        apply list_elem_of_singleton in Hin. done.
      * apply Hc. by apply (subseteq_drop 4 pages).
Qed.

Section MergeFacts.
Variable wrap : Wrapper.
Variable table_height : list (list Paragraph) -> list Qc -> Qc.
Variable hexval : string -> string.

Import InsertCallouts.

Lemma load_config_fallback env fs :
  fs !! resolve (cwd env) (configured_ORIG_PDF env) = None →
  ORIG_PDF (load_config env fs) = "Phantom_Engaged_v4.pdf" ∧
  OUTPUT (load_config env fs) = "Phantom_Engaged_v5.pdf".
Proof.
  intros Hnone. unfold load_config, path_exists.
  rewrite bool_decide_eq_false_2; [done|].
  rewrite Hnone. by intros [? ?].
Qed.

Lemma make_callout_page_first story_items page_num :
  forallb marker_free story_items = true →
  ∃ first rest,
    make_callout_page wrap table_height story_items page_num
      = Ok (BuiltPage first :: rest) ∧
    pr_number first = 1%Z ∧ pr_chrome first = draw_footer page_num.
Proof.
  intros Hs. unfold make_callout_page.
  match goal with |- context [engine_build _ _ (?t0 :: ?tpls) _] =>
    destruct (engine_build_marker_free wrap table_height t0 tpls story_items Hs)
      as (first & rest & -> & Hnum & _ & Hch) end.
  exists first, (map BuiltPage rest). by repeat split.
Qed.

Lemma build_found env fs pages :
  fs !! resolve (cwd env) (ORIG_PDF (load_config env fs)) = Some pages →
  ∃ a c msgs,
    build wrap table_height hexval env fs =
      (Ok msgs,
       <[resolve (cwd env) (OUTPUT (load_config env fs)) :=
           merge_output pages (BuiltPage a) (BuiltPage c)]> fs) ∧
    pr_chrome a = draw_footer 3 ∧ pr_chrome c = draw_footer 8.
Proof.
  intros Hsrc. unfold build. rewrite Hsrc. cbn [rbind].
  destruct (make_callout_page_first
              (create_approach_a wrap hexval (TOOL_URL (load_config env fs))
                                 (W - inch * dec 17 10)) 3 eq_refl)
    as (a & resta & -> & _ & Ha).
  cbn [lift_build rbind first_page].
  destruct (make_callout_page_first
              (create_approach_c hexval (TOOL_URL (load_config env fs))
                                 (W - inch * dec 17 10)) 8 eq_refl)
    as (c & restc & -> & _ & Hc).
  cbn [lift_build rbind first_page].
  rewrite assemble_closed. eauto 10.
Qed.

Lemma draw_footer_3_8 : draw_footer 3 ≠ draw_footer 8.
Proof. intros Heq. apply (f_equal printed) in Heq. vm_compute in Heq. discriminate. Qed.

Lemma build_found_pages env fs pages :
  fs !! resolve (cwd env) (ORIG_PDF (load_config env fs)) = Some pages →
  ∃ a resta c restc,
    make_callout_page wrap table_height
      (create_approach_a wrap hexval (TOOL_URL (load_config env fs))
                         (W - inch * dec 17 10)) 3
      = Ok (BuiltPage a :: resta) ∧
    make_callout_page wrap table_height
      (create_approach_c hexval (TOOL_URL (load_config env fs))
                         (W - inch * dec 17 10)) 8
      = Ok (BuiltPage c :: restc) ∧
    pr_chrome a = draw_footer 3 ∧ pr_chrome c = draw_footer 8 ∧
    build wrap table_height hexval env fs =
      (Ok [ nl +:+ "  Generated: " +:+ OUTPUT (load_config env fs);
            "  URL: " +:+ TOOL_URL (load_config env fs);
            "  Original pages preserved. Two callout pages inserted." +:+ nl ],
       <[resolve (cwd env) (OUTPUT (load_config env fs)) :=
           merge_output pages (BuiltPage a) (BuiltPage c)]> fs).
Proof.
  intros Hsrc. unfold build. rewrite Hsrc. cbn [rbind].
  destruct (make_callout_page_first
              (create_approach_a wrap hexval (TOOL_URL (load_config env fs))
                                 (W - inch * dec 17 10)) 3 eq_refl)
    as (a & resta & Hpa & _ & Ha).
  destruct (make_callout_page_first
              (create_approach_c hexval (TOOL_URL (load_config env fs))
                                 (W - inch * dec 17 10)) 8 eq_refl)
    as (c & restc & Hpc & _ & Hc).
  exists a, resta, c, restc. rewrite Hpa, Hpc.
  cbn [lift_build rbind first_page].
  rewrite assemble_closed.
  split; [reflexivity|]. split; [reflexivity|]. split; [exact Ha|].
  split; [exact Hc | reflexivity].
Qed.

Lemma build_missing env fs :
  fs !! resolve (cwd env) (ORIG_PDF (load_config env fs)) = None →
  build wrap table_height hexval env fs =
    (Err (FileNotFound (ORIG_PDF (load_config env fs))), fs).
Proof. intros Hsrc. unfold build. by rewrite Hsrc. Qed.

(** C3 (amended).  For a source of N pages with N at least 8, the merge
    writes a document of N + 2 pages: the source pages, unchanged and in
    their order, with the Approach-A page right after source page 3 and the
    Approach-C page right after source page 7. *)
Theorem merge_inserts_two_pages env fs pages :
  fs !! resolve (cwd env) (ORIG_PDF (load_config env fs)) = Some pages →
  (8 ≤ length pages)%nat →
  ∃ a c msgs out,
    build wrap table_height hexval env fs =
      (Ok msgs, <[resolve (cwd env) (OUTPUT (load_config env fs)) := out]> fs) ∧
    pr_chrome a = draw_footer 3 ∧ pr_chrome c = draw_footer 8 ∧
    out = take 4 pages ++ [BuiltPage a] ++ take 4 (drop 4 pages) ++
          [BuiltPage c] ++ drop 8 pages ∧
    length out = (length pages + 2)%nat ∧
    (∀ i pg, pages !! i = Some pg → out !! merged_index i = Some pg) ∧
    out !! 3%nat = pages !! 3%nat ∧ out !! 4%nat = Some (BuiltPage a) ∧
    out !! 8%nat = pages !! 7%nat ∧ out !! 9%nat = Some (BuiltPage c).
Proof.
  intros Hsrc Hlen.
  destruct (build_found env fs pages Hsrc) as (a & c & msgs & Hb & Ha & Hc).
  destruct (merge_output_long pages (BuiltPage a) (BuiltPage c) Hlen)
    as (Hout & Hl & Hall & H3 & H4 & H8 & H9).
  exists a, c, msgs, (merge_output pages (BuiltPage a) (BuiltPage c)).
  by repeat split.
Qed.

(** C4 (amended).  A source of fewer than 8 pages is not rejected: the
    merge runs to its end, prints its three lines and writes a document with
    all the source pages in their order.  When the source has a page 3, the
    page that follows it is the Approach-A page, the first page of the
    callout document laid out from the Approach-A story with footer number
    3; nothing else is added.  The Approach-C page, laid out with footer
    number 8, is built but does not go in. *)
Theorem merge_short_source_not_rejected env fs pages :
  fs !! resolve (cwd env) (ORIG_PDF (load_config env fs)) = Some pages →
  (length pages < 8)%nat →
  ∃ a resta c restc out,
    make_callout_page wrap table_height
      (create_approach_a wrap hexval (TOOL_URL (load_config env fs))
                         (W - inch * dec 17 10)) 3
      = Ok (BuiltPage a :: resta) ∧
    make_callout_page wrap table_height
      (create_approach_c hexval (TOOL_URL (load_config env fs))
                         (W - inch * dec 17 10)) 8
      = Ok (BuiltPage c :: restc) ∧
    pr_chrome a = draw_footer 3 ∧ pr_chrome c = draw_footer 8 ∧
    build wrap table_height hexval env fs =
      (Ok [ nl +:+ "  Generated: " +:+ OUTPUT (load_config env fs);
            "  URL: " +:+ TOOL_URL (load_config env fs);
            "  Original pages preserved. Two callout pages inserted." +:+ nl ],
       <[resolve (cwd env) (OUTPUT (load_config env fs)) := out]> fs) ∧
    out = take 4 pages ++
          (if bool_decide (4 ≤ length pages)%nat then [BuiltPage a] else []) ++
          drop 4 pages ∧
    length out =
      (length pages + (if bool_decide (4 ≤ length pages)%nat then 1 else 0))%nat ∧
    (BuiltPage c ∉ pages → BuiltPage c ∉ out).
Proof.
  intros Hsrc Hlen.
  destruct (build_found_pages env fs pages Hsrc)
    as (a & resta & c & restc & Hpa & Hpc & Ha & Hc & Hb).
  destruct (merge_output_short pages (BuiltPage a) (BuiltPage c) Hlen)
    as (Hout & Hl & Hnot).
  exists a, resta, c, restc, (merge_output pages (BuiltPage a) (BuiltPage c)).
  split; [exact Hpa|]. split; [exact Hpc|]. split; [exact Ha|].
  split; [exact Hc|]. split; [exact Hb|]. split; [exact Hout|].
  split; [exact Hl|].
  intros Hc'. apply Hnot; [exact Hc'|].
  intros Heq. injection Heq as Heq. apply draw_footer_3_8.
  by rewrite <- Ha, <- Hc, Heq.
Qed.

(** C6.  When there is no source document, neither at the configured place
    nor in the working directory, the run stops with a file-not-found error
    at the read and leaves the file system as it was: nothing is written. *)
Theorem merge_missing_source_aborts env fs :
  fs !! resolve (cwd env) (configured_ORIG_PDF env) = None →
  fs !! resolve (cwd env) "Phantom_Engaged_v4.pdf" = None →
  build wrap table_height hexval env fs =
    (Err (FileNotFound "Phantom_Engaged_v4.pdf"), fs).
Proof.
  intros Hconf Hfall.
  destruct (load_config_fallback env fs Hconf) as (Ho & _).
  rewrite build_missing; rewrite Ho; done.
Qed.


End MergeFacts.

Lemma sample_source_found n :
  sample_fs n !! InsertCallouts.resolve (InsertCallouts.cwd sample_env)
    (InsertCallouts.ORIG_PDF (InsertCallouts.load_config sample_env (sample_fs n)))
  = Some (source_pages n).
Proof. reflexivity. Qed.

Lemma merge_inserts_two_pages_witness :
  ∃ msgs out,
    InsertCallouts.build sample_wrap sample_table_height sample_hexval
      sample_env (sample_fs 9)
    = (Ok msgs, <["/work/Phantom_Engaged_v5.pdf" := out]> (sample_fs 9)) ∧
    length out = 11%nat.
Proof.
  destruct (merge_inserts_two_pages sample_wrap sample_table_height
              sample_hexval sample_env (sample_fs 9) (source_pages 9)
              (sample_source_found 9) ltac:(vm_compute; lia))
    as (a & c & msgs & out & Hb & _ & _ & _ & Hlen & _).
  exists msgs, out. split; [exact Hb | exact Hlen].
Defined.

(** C3, as stated, fails: a source of 5 pages is merged into 6 pages. *)
Lemma merge_inserts_two_pages_cex :
  ∃ msgs out,
    InsertCallouts.build sample_wrap sample_table_height sample_hexval
      sample_env (sample_fs 5)
    = (Ok msgs, <["/work/Phantom_Engaged_v5.pdf" := out]> (sample_fs 5)) ∧
    length out = 6%nat ∧ length out ≠ (length (source_pages 5) + 2)%nat.
Proof.
  destruct (build_found sample_wrap sample_table_height sample_hexval
              sample_env (sample_fs 5) (source_pages 5) (sample_source_found 5))
    as (a & c & msgs & Hb & _).
  exists msgs, (merge_output (source_pages 5) (BuiltPage a) (BuiltPage c)).
  split; [exact Hb|]. split; [reflexivity | vm_compute; lia].
Qed.

Lemma merge_short_source_not_rejected_witness :
  ∃ a out,
    pr_chrome a = InsertCallouts.draw_footer 3 ∧
    snd (InsertCallouts.build sample_wrap sample_table_height sample_hexval
           sample_env (sample_fs 5))
    = <["/work/Phantom_Engaged_v5.pdf" := out]> (sample_fs 5) ∧
    out = take 4 (source_pages 5) ++ [BuiltPage a] ++ drop 4 (source_pages 5) ∧
    length out = 6%nat.
Proof.
  destruct (merge_short_source_not_rejected sample_wrap sample_table_height
              sample_hexval sample_env (sample_fs 5) (source_pages 5)
              (sample_source_found 5) ltac:(vm_compute; lia))
    as (a & resta & c & restc & out & _ & _ & Ha & _ & Hb & Hout & Hlen & _).
  exists a, out. split; [exact Ha|]. split; [by rewrite Hb|].
  split; [exact Hout | exact Hlen].
Defined.

(** C4, as stated, fails: on a source of 5 pages the run does not stop with
    an error, and it writes the output file. *)
Lemma merge_short_source_not_rejected_cex :
  (length (source_pages 5) < 8)%nat ∧
  ∃ msgs,
    fst (InsertCallouts.build sample_wrap sample_table_height sample_hexval
           sample_env (sample_fs 5)) = Ok msgs ∧
    is_Some (snd (InsertCallouts.build sample_wrap sample_table_height
                    sample_hexval sample_env (sample_fs 5))
             !! "/work/Phantom_Engaged_v5.pdf") ∧
    sample_fs 5 !! "/work/Phantom_Engaged_v5.pdf" = None.
Proof.
  split; [vm_compute; lia|].
  destruct (build_found sample_wrap sample_table_height sample_hexval
              sample_env (sample_fs 5) (source_pages 5) (sample_source_found 5))
    as (a & c & msgs & Hb & _).
  exists msgs. rewrite Hb. cbn [fst snd].
  split; [reflexivity|]. split; [|reflexivity].
  eexists. apply lookup_insert_eq.
Qed.

Lemma merge_missing_source_aborts_witness :
  InsertCallouts.build sample_wrap sample_table_height sample_hexval
    sample_env ∅
  = (Err (InsertCallouts.FileNotFound "Phantom_Engaged_v4.pdf"), ∅).
Proof.
  apply (merge_missing_source_aborts sample_wrap sample_table_height
           sample_hexval sample_env ∅); reflexivity.
Defined.


(** * Further properties of the layout code *)

Lemma this_add (x y : Qc) : (this (x + y) == this x + this y)%Q.
Proof. apply Qred_correct. Qed.

Lemma this_opp (x : Qc) : (this (- x) == - this x)%Q.
Proof. apply Qred_correct. Qed.

Lemma this_sub (x y : Qc) : (this (x - y) == this x - this y)%Q.
Proof. unfold Qcminus. rewrite this_add, this_opp. reflexivity. Qed.

Lemma this_mul (x y : Qc) : (this (x * y) == this x * this y)%Q.
Proof. apply Qred_correct. Qed.

Lemma this_inv (x : Qc) : (this (/ x) == / this x)%Q.
Proof. apply Qred_correct. Qed.

Lemma this_div (x y : Qc) : (this (x / y) == this x / this y)%Q.
Proof. unfold Qcdiv. rewrite this_mul, this_inv. reflexivity. Qed.

Lemma this_num n : (this (num n) == inject_Z n)%Q.
Proof. apply Qred_correct. Qed.

Lemma this_dec n d : (this (dec n d) == n # d)%Q.
Proof. apply Qred_correct. Qed.

Ltac qc_push :=
  repeat first [ rewrite this_add | rewrite this_sub | rewrite this_mul
               | rewrite this_div | rewrite this_opp | rewrite this_num
               | rewrite this_dec ].

Ltac qc_push_in Hq :=
  repeat first [ rewrite this_add in Hq | rewrite this_sub in Hq
               | rewrite this_mul in Hq | rewrite this_div in Hq
               | rewrite this_opp in Hq | rewrite this_num in Hq
               | rewrite this_dec in Hq ].

(** Closes linear inequalities of the rational field over [num] and [dec]
    literals; divisions are by literals. *)
Ltac qc_lra :=
  unfold inch, W, H in *;
  repeat match goal with
         | Hq : Qcle ?a ?b |- _ =>
             change (Qle (this a) (this b)) in Hq; qc_push_in Hq
         | Hq : Qclt ?a ?b |- _ =>
             change (Qlt (this a) (this b)) in Hq; qc_push_in Hq
         end;
  match goal with
  | |- Qcle ?a ?b => change (Qle (this a) (this b))
  | |- Qclt ?a ?b => change (Qlt (this a) (this b))
  end;
  qc_push;
  unfold Qdiv in *;
  repeat match goal with
         | |- context [Qinv (inject_Z ?n)] =>
             let v := eval vm_compute in (Qinv (inject_Z n)) in
             change (Qinv (inject_Z n)) with v
         | Hq : context [Qinv (inject_Z ?n)] |- _ =>
             let v := eval vm_compute in (Qinv (inject_Z n)) in
             change (Qinv (inject_Z n)) with v in Hq
         end;
  unfold inject_Z in *; lra.

(** ** Callout boxes: where the text goes *)

Section CalloutPlacement.
Variable wrap : Wrapper.

Lemma draw_loop_events iw x ps acc :
  snd (foldl (draw_step wrap iw x) acc ps)
  = snd acc ++ draw_events wrap iw x (fst acc) ps.
Proof.
  revert acc. induction ps as [|p ps IH]; intros acc; simpl.
  - by rewrite app_nil_r.
  - rewrite IH. simpl. by rewrite <- app_assoc.
Qed.

Lemma sum_wrapped_nonneg iw ps :
  (∀ p, p ∈ ps → num 0 ≤ snd (wrap p iw (num 10000))) →
  num 0 ≤ sum_wrapped wrap iw ps.
Proof.
  induction ps as [|p ps IH]; intros Hps; simpl.
  - apply Qcle_refl.
  - assert (num 0 ≤ sum_wrapped wrap iw ps) as Hs
      by (apply IH; intros q Hq; apply Hps; by right).
    assert (num 0 ≤ snd (wrap p iw (num 10000))) as Hp by (apply Hps; by left).
    revert Hs Hp. generalize (sum_wrapped wrap iw ps).
    generalize (snd (wrap p iw (num 10000))). intros h s Hs Hp. qc_lra.
Qed.

Lemma sum_wrapped_app iw ps1 ps2 :
  sum_wrapped wrap iw (ps1 ++ ps2)
  = sum_wrapped wrap iw ps1 + sum_wrapped wrap iw ps2.
Proof.
  induction ps1 as [|p ps1 IH]; simpl.
  - rewrite num_zero. ring.
  - rewrite IH. ring.
Qed.

Lemma draw_events_bounds iw x ps y p x' y' :
  (∀ q, q ∈ ps → num 0 ≤ snd (wrap q iw (num 10000))) →
  DrawOn p x' y' ∈ draw_events wrap iw x y ps →
  x' = x ∧
  y - sum_wrapped wrap iw ps + num 4 ≤ y' ∧
  y' + snd (wrap p iw (num 10000)) ≤ y.
Proof.
  revert y. induction ps as [|q ps IH]; intros y Hps Hin; simpl in *.
  - by apply elem_of_nil in Hin.
  - assert (num 0 ≤ sum_wrapped wrap iw ps) as Hs
      by (apply sum_wrapped_nonneg; intros r Hr; apply Hps; by right).
    assert (num 0 ≤ snd (wrap q iw (num 10000))) as Hq by (apply Hps; by left).
    apply elem_of_cons in Hin as [Hin | Hin]; [discriminate|].
    apply elem_of_cons in Hin as [Hin | Hin].
    + injection Hin as -> -> ->. split; [done|].
      revert Hs Hq. generalize (sum_wrapped wrap iw ps).
      generalize (snd (wrap q iw (num 10000))). intros h s Hs Hq.
      split; qc_lra.
    + destruct (IH _ (λ r Hr, Hps r (list_elem_of_further _ _ _ Hr)) Hin)
        as (Hx & Hlo & Hhi).
      split; [done|].
      revert Hs Hq Hlo Hhi. generalize (sum_wrapped wrap iw ps).
      generalize (snd (wrap q iw (num 10000))).
      generalize (snd (wrap p iw (num 10000))).
      intros hp h s Hs Hq Hlo Hhi. split; qc_lra.
Qed.

Lemma CalloutBox_draw_inside b p x y :
  (∀ q, q ∈ paras b → num 0 ≤ snd (wrap q (inner_w b) (num 10000))) →
  DrawOn p x y ∈ CalloutBox_draw wrap b →
  x = bar_w b + padding b ∧
  (y_base + box_h b - padding b)
    - sum_wrapped wrap (inner_w b) (paras b) + num 4 ≤ y ∧
  y + snd (wrap p (inner_w b) (num 10000)) ≤ y_base + box_h b - padding b.
Proof.
  intros Hps Hin. unfold CalloutBox_draw, CalloutBox_draw_run, draw_loop in Hin.
  cbn [snd] in Hin. rewrite draw_loop_events in Hin. cbn [fst snd] in Hin.
  do 4 (apply elem_of_cons in Hin as [Hin | Hin]; [discriminate|]).
  exact (draw_events_bounds _ _ _ _ _ _ _ Hps Hin).
Qed.

(** X1.  When no paragraph wraps to a negative height, every paragraph of a
    callout is drawn right of the bar and its padding, and between the two
    paddings of the box: its lower edge is no lower than padding above the
    box bottom and its upper edge no higher than padding below the box
    top. *)
Theorem callout_text_inside_box texts w bg0 border0 pad style p x y :
  let b := fst (CalloutBox_init wrap texts w bg0 border0 pad style) in
  (∀ q, q ∈ paras b → num 0 ≤ snd (wrap q (inner_w b) (num 10000))) →
  DrawOn p x y ∈ CalloutBox_draw wrap b →
  x = bar_w b + padding b ∧
  y_base + padding b ≤ y ∧
  y + snd (wrap p (inner_w b) (num 10000)) ≤ y_base + box_h b - padding b.
Proof.
  intros b Hps Hin.
  assert (box_h b = sum_wrapped wrap (inner_w b) (paras b)
                    + padding b * num 2 - num 4) as Hbox.
  { subst b. by rewrite CalloutBox_init_eq. }
  destruct (CalloutBox_draw_inside b p x y Hps Hin) as (Hx & Hlo & Hhi).
  clearbody b. clear Hps Hin.
  split; [exact Hx|]. split; [|exact Hhi].
  rewrite Hbox in Hlo. clear Hbox Hhi Hx. revert Hlo. unfold y_base.
  generalize (sum_wrapped wrap (inner_w b) (paras b)).
  generalize (padding b). intros pd s Hlo. qc_lra.
Qed.

(** X2.  The box height of a callout is additive in its paragraphs: the box
    of two lists put together is as high as the two boxes, less the one
    frame of paddings (2 × padding - 4) that an empty callout has; the
    reported height stays 8 above the box height. *)
Theorem callout_height_of_concatenation texts1 texts2 w bg0 border0 pad style :
  let box texts := fst (CalloutBox_init wrap texts w bg0 border0 pad style) in
  box_h (box []) = num 2 * pad - num 4 ∧
  box_h (box (texts1 ++ texts2)) + box_h (box [])
    = box_h (box texts1) + box_h (box texts2) ∧
  height (box (texts1 ++ texts2)) + box_h (box [])
    = height (box texts1) + box_h (box texts2) ∧
  paras (box (texts1 ++ texts2)) = paras (box texts1) ++ paras (box texts2).
Proof.
  cbv beta zeta. rewrite !CalloutBox_init_eq. cbn [fst box_h height paras].
  rewrite map_app, sum_wrapped_app. simpl sum_wrapped.
  generalize (sum_wrapped wrap (w - num 4 - pad * num 2)
                (map (make_para style) texts1)).
  generalize (sum_wrapped wrap (w - num 4 - pad * num 2)
                (map (make_para style) texts2)).
  intros s2 s1. split; [qc_arith|]. split; [qc_arith|]. split; [qc_arith|done].
Qed.

End CalloutPlacement.

Lemma callout_text_inside_box_witness :
  num 18 = bar_w sample_box + padding sample_box ∧
  y_base + padding sample_box ≤ num 18 ∧
  num 18 + snd (sample_wrap sample_para (inner_w sample_box) (num 10000))
    ≤ y_base + box_h sample_box - padding sample_box.
Proof.
  apply (callout_text_inside_box sample_wrap sample_texts (dec 4896 10)
           PhantomEngaged.CALLOUT_BG PhantomEngaged.TEAL (num 14)
           PhantomEngaged.sCalloutItalic sample_para (num 18) (num 18)).
  - intros q Hq. apply list_elem_of_singleton in Hq. subst q.
    vm_compute. discriminate.
  - apply (list_elem_of_lookup_2 _ 5%nat). reflexivity.
Defined.

(** ** The callouts of the whitepaper generators *)

Section ModernCalloutFacts.
Variable wrap : Wrapper.

Lemma mc_measure_from iw ps acc :
  foldl (WhitepaperFull.mc_measure_step wrap iw) acc ps =
  (fst acc + mc_sum wrap iw ps, snd acc ++ map (mc_wrap_event iw) ps).
Proof.
  revert acc. induction ps as [|p ps IH]; intros [t log]; simpl.
  - f_equal; [rewrite num_zero; ring | by rewrite app_nil_r].
  - rewrite IH. simpl. f_equal; [ring | by rewrite <- app_assoc].
Qed.

Lemma mc_draw_from iw x ps acc :
  fst (foldl (WhitepaperFull.mc_draw_step wrap iw x) acc ps)
    = fst acc - mc_sum wrap iw ps ∧
  wrap_calls (snd (foldl (WhitepaperFull.mc_draw_step wrap iw x) acc ps))
    = wrap_calls (snd acc) ++ map (mc_wrap_event iw) ps.
Proof.
  revert acc. induction ps as [|p ps IH]; intros [y evs]; simpl.
  - split; [rewrite num_zero; ring | by rewrite app_nil_r].
  - destruct (IH (WhitepaperFull.mc_draw_step wrap iw x (y, evs) p))
      as (Hy & Hw).
    rewrite Hy, Hw. simpl. split; [ring|].
    rewrite wrap_calls_app. simpl. by rewrite <- app_assoc.
Qed.

Lemma mc_draw_stacked iw x ps acc :
  snd (foldl (WhitepaperFull.mc_draw_step wrap iw x) acc ps)
  = snd acc ++
    stacked wrap iw (num 1000) (num 10) x
      (fst acc - stack_height wrap iw (num 1000) (num 10) ps + num 10) ps.
Proof.
  revert acc. induction ps as [|p ps IH]; intros [y evs]; simpl.
  - by rewrite app_nil_r.
  - rewrite IH. simpl. rewrite <- app_assoc. simpl.
    do 3 f_equal; f_equal; ring.
Qed.

(** X3.  [ModernCallout] of [generate_whitepaper_full.py] reports as its
    height exactly Σ (wrapped height + 10) - 10 + 2 × 18, the blocks wrapped
    at width - 36 - 4, and paints its background with that height.  Drawing
    wraps every block again at the same width and draws it right after, 22
    from the left: block [k] has its lower edge above the bottom padding by
    the blocks after it and its upper edge below the top padding by the
    blocks before it, so the last block ends exactly one padding above the
    bottom.  A bare text is the list of that one text. *)
Theorem modern_callout_measure_draw text_items w :
  let b := fst (WhitepaperFull.ModernCallout_init wrap text_items w) in
  let log := snd (WhitepaperFull.ModernCallout_init wrap text_items w) in
  let below k :=
    stack_height wrap (WhitepaperFull.mc_inner_w b) (num 1000) (num 10)
                 (drop (S k) (WhitepaperFull.mc_paras b)) in
  let above k :=
    stack_height wrap (WhitepaperFull.mc_inner_w b) (num 1000) (num 10)
                 (take k (WhitepaperFull.mc_paras b)) in
  WhitepaperFull.mc_inner_w b = w - num 36 - num 4 ∧
  WhitepaperFull.mc_height b =
    mc_sum wrap (WhitepaperFull.mc_inner_w b) (WhitepaperFull.mc_paras b)
    - num 10 + num 36 ∧
  log = map (mc_wrap_event (WhitepaperFull.mc_inner_w b))
            (WhitepaperFull.mc_paras b) ∧
  wrap_calls (WhitepaperFull.ModernCallout_draw wrap b) = log ∧
  WhitepaperFull.ModernCallout_draw wrap b !! 1%nat =
    Some (Rect (num 0) (num 0) w (WhitepaperFull.mc_height b)) ∧
  fst (WhitepaperFull.ModernCallout_draw_run wrap b) + num 10
    = WhitepaperFull.mc_padding b ∧
  (∀ s, WhitepaperFull.ModernCallout_init wrap (WhitepaperFull.OneText s) w =
        WhitepaperFull.ModernCallout_init wrap
          (WhitepaperFull.ItemList [Plain s]) w) ∧
  WhitepaperFull.ModernCallout_draw wrap b =
    [ SetFillColor WhitepaperFull.TEAL_MUTED;
      Rect (num 0) (num 0) w (WhitepaperFull.mc_height b);
      SetFillColor WhitepaperFull.TEAL;
      Rect (num 0) (num 0) (num 4) (WhitepaperFull.mc_height b) ] ++
    stacked wrap (WhitepaperFull.mc_inner_w b) (num 1000) (num 10)
            (num 22) (num 18) (WhitepaperFull.mc_paras b) ∧
  (∀ k p, WhitepaperFull.mc_paras b !! k = Some p →
     WhitepaperFull.ModernCallout_draw wrap b !! (2 * k + 5)%nat
       = Some (DrawOn p (num 4 + WhitepaperFull.mc_padding b)
                        (WhitepaperFull.mc_padding b + below k)) ∧
     (WhitepaperFull.mc_padding b + below k)
       + snd (wrap p (WhitepaperFull.mc_inner_w b) (num 1000))
       = WhitepaperFull.mc_height b - WhitepaperFull.mc_padding b - above k).
Proof.
  cbv zeta. unfold WhitepaperFull.ModernCallout_init.
  rewrite mc_measure_from. cbn [fst snd app].
  unfold WhitepaperFull.ModernCallout_draw, WhitepaperFull.ModernCallout_draw_run.
  cbn [fst snd WhitepaperFull.mc_inner_w WhitepaperFull.mc_height
       WhitepaperFull.mc_paras WhitepaperFull.mc_padding
       WhitepaperFull.mc_width WhitepaperFull.mc_bg
       WhitepaperFull.mc_border_color].
  match goal with |- context [foldl ?f ?a ?l] =>
    destruct (mc_draw_from (w - num 18 * num 2 - num 4) (num 4 + num 18) l a)
      as (Hy & Hw);
    pose proof (mc_draw_stacked (w - num 18 * num 2 - num 4) (num 4 + num 18) l a)
      as Hst
  end.
  cbn [fst snd app] in Hy, Hw, Hst. rewrite Hy. rewrite wrap_calls_app, Hw.
  rewrite Hst. clear Hy Hw Hst.
  match goal with |- context [mc_sum wrap ?iw ?ps] =>
    set (iw0 := iw) in *; set (ps0 := ps) in * end.
  change (stack_height wrap iw0 (num 1000) (num 10) ps0)
    with (mc_sum wrap iw0 ps0).
  assert (num 0 + mc_sum wrap iw0 ps0 - num 10 + num 18 * num 2 - num 18
            - mc_sum wrap iw0 ps0 + num 10 = num 18) as Hy0.
  { generalize (mc_sum wrap iw0 ps0). intros s. qc_arith. }
  assert (num 4 + num 18 = num 22) as Hx by qc_arith.
  rewrite Hy0, Hx.
  split; [subst iw0; qc_arith|].
  split; [generalize (mc_sum wrap iw0 ps0); intros s; qc_arith|].
  split; [reflexivity|]. split; [reflexivity|]. split; [reflexivity|].
  split; [generalize (mc_sum wrap iw0 ps0); intros s; qc_arith|].
  split; [reflexivity|]. split; [reflexivity|].
  intros k p Hk. split.
  - replace (2 * k + 5)%nat with (4 + (2 * k + 1))%nat by lia.
    cbn [app lookup list_lookup Nat.add].
    exact (stacked_lookup wrap _ _ _ _ _ _ _ _ Hk).
  - change (mc_sum wrap iw0 ps0)
      with (stack_height wrap iw0 (num 1000) (num 10) ps0).
    rewrite (stack_height_split wrap _ _ _ _ _ _ Hk).
    generalize (stack_height wrap iw0 (num 1000) (num 10) (take k ps0)).
    generalize (stack_height wrap iw0 (num 1000) (num 10) (drop (S k) ps0)).
    generalize (snd (wrap p iw0 (num 1000))).
    intros h lo hi. qc_arith.
Qed.

(** X4.  [ModernCallout] of [generate_whitepaper_proof.py] wraps its one
    paragraph once, when it is built, and keeps the height: drawing calls no
    wrap, paints the background with the reported height h + 36 and puts the
    text 22 from the left and 18 from the bottom, so that 18 is left above
    it as well. *)
Theorem proof_callout_wraps_once text w :
  let b := fst (WhitepaperProof.ModernCallout_init wrap text w) in
  snd (WhitepaperProof.ModernCallout_init wrap text w)
    = [WrapCall (WhitepaperProof.mc_p b) (w - num 36 - num 4) (num 1000)] ∧
  WhitepaperProof.mc_inner_w b = w - num 36 - num 4 ∧
  WhitepaperProof.mc_h b
    = snd (wrap (WhitepaperProof.mc_p b) (WhitepaperProof.mc_inner_w b)
             (num 1000)) ∧
  wrap_calls (WhitepaperProof.ModernCallout_draw b) = [] ∧
  WhitepaperProof.ModernCallout_draw b !! 1%nat
    = Some (Rect (num 0) (num 0) w (WhitepaperProof.mc_height b)) ∧
  WhitepaperProof.ModernCallout_draw b !! 4%nat
    = Some (DrawOn (WhitepaperProof.mc_p b) (num 22) (num 18)) ∧
  num 18 + WhitepaperProof.mc_h b = WhitepaperProof.mc_height b - num 18.
Proof.
  cbv zeta. unfold WhitepaperProof.ModernCallout_init,
    WhitepaperProof.ModernCallout_draw.
  cbn [fst snd WhitepaperProof.mc_inner_w WhitepaperProof.mc_height
       WhitepaperProof.mc_p WhitepaperProof.mc_padding WhitepaperProof.mc_h
       WhitepaperProof.mc_width WhitepaperProof.mc_bg
       WhitepaperProof.mc_border_color].
  assert (w - num 18 * num 2 - num 4 = w - num 36 - num 4) as -> by qc_arith.
  generalize (snd (wrap (Para text WhitepaperProof.sCalloutText)
                     (w - num 36 - num 4) (num 1000))).
  intros h.
  split; [reflexivity|]. split; [reflexivity|]. split; [reflexivity|].
  split; [reflexivity|]. split; [reflexivity|].
  split; [do 2 f_equal; qc_arith | qc_arith].
Qed.

End ModernCalloutFacts.

(** ** The overlap diagrams: what fits the drawing *)

Ltac within_all :=
  repeat (apply Forall_cons; split;
          [unfold within_width, shape_right, shape_x, shape_w; split; qc_lra|]);
  apply Forall_nil; exact I.

(** X5.  The diagram of [generate_whitepaper_full.py] does not scale: at
    every width the bar is 420 wide and the phantom zone 160 wide, both
    centred on the drawing with their lower edge at 37.  The rectangles and
    the anchors of the texts stay between the edges of the drawing exactly
    when the width is at least 420, as it is at the content width of the
    generator. *)
Theorem full_diagram_fixed_bar (w : Qc) :
  let shapes :=
    drawing_shapes
      (WhitepaperFull.OverlapDiagram_draw (WhitepaperFull.OverlapDiagram_init w)) in
  shapes !! 0%nat =
    Some (SRect (w / num 2 - num 210) (num 37) (num 420) (num 56) (num 4) (num 4)
                (Some WhitepaperFull.DARK_BG)
                (Some WhitepaperFull.default_stroke) (num 0)) ∧
  shapes !! 1%nat =
    Some (SRect (w / num 2 - num 80) (num 37) (num 160) (num 56) (num 0) (num 0)
                (Some WhitepaperFull.TEAL_MUTED) (Some WhitepaperFull.TEAL)
                (num 2)) ∧
  (Forall (within_width w) shapes ↔ num 420 ≤ w) ∧
  num 420 ≤ W - num 2 * WhitepaperFull.MARGIN.
Proof.
  cbv zeta. unfold WhitepaperFull.OverlapDiagram_draw,
    WhitepaperFull.OverlapDiagram_init.
  cbn [od_width od_height drawing_shapes flat_map dr_shapes app].
  split; [cbn [lookup list_lookup]; do 2 f_equal; qc_arith|].
  split; [cbn [lookup list_lookup]; do 2 f_equal; qc_arith|].
  split; [split|].
  - intros Hall. apply Forall_cons in Hall as [[Hlo _] _].
    unfold shape_x in Hlo. qc_lra.
  - intros Hw. within_all.
  - unfold WhitepaperFull.MARGIN. qc_lra.
Qed.

(** X6.  The diagram of [generate_whitepaper_proof.py] is three zones of
    width 120, 160 and 120 that tile a bar of 400 centred on the drawing,
    each zone beginning where the one before ends.  The rectangles and the
    anchors of the texts stay between the edges of the drawing exactly when
    the width is at least 400. *)
Theorem proof_diagram_zones (w : Qc) :
  let shapes :=
    drawing_shapes
      (WhitepaperProof.OverlapDiagram_draw (WhitepaperProof.OverlapDiagram_init w)) in
  shapes !! 0%nat =
    Some (SRect (w / num 2 - num 200) (num 25) (num 120) (num 50) (num 0) (num 0)
                (Some WhitepaperProof.DARK_BG)
                (Some WhitepaperProof.default_stroke) (num 0)) ∧
  shapes !! 2%nat =
    Some (SRect (w / num 2 - num 80) (num 25) (num 160) (num 50) (num 0) (num 0)
                (Some WhitepaperProof.TEAL_MUTED) (Some WhitepaperProof.TEAL)
                (num 2)) ∧
  shapes !! 5%nat =
    Some (SRect (w / num 2 + num 80) (num 25) (num 120) (num 50) (num 0) (num 0)
                (Some WhitepaperProof.DARK_BG)
                (Some WhitepaperProof.default_stroke) (num 0)) ∧
  (Forall (within_width w) shapes ↔ num 400 ≤ w).
Proof.
  cbv zeta. unfold WhitepaperProof.OverlapDiagram_draw,
    WhitepaperProof.OverlapDiagram_init.
  cbn [od_width od_height drawing_shapes flat_map dr_shapes app].
  split; [cbn [lookup list_lookup]; do 2 f_equal; qc_arith|].
  split; [cbn [lookup list_lookup]; do 2 f_equal; qc_arith|].
  split; [cbn [lookup list_lookup]; do 2 f_equal; qc_arith|].
  split.
  - intros Hall. apply Forall_cons in Hall as [[Hlo _] _].
    unfold shape_x in Hlo. qc_lra.
  - intros Hw. within_all.
Qed.

(** X7.  In the proportional diagram of [generate_phantom_engaged.py] the
    fixed insets meet the proportional parts at small widths.  The ENGAGED
    label begins 20 right of the box edge and the UNENGAGED label ends 20
    left of the other edge.  The first begins left of where the second ends
    exactly when the width is at least 2000/41 (about 49); it begins left of
    the dashed divider exactly when the width is at least 12500/369 (about
    34); the second ends right of the divider exactly when the width is at
    least 25000/287 (about 87).  The white overlay, which stops a fixed 4
    before the box edge, has a width that is not negative exactly when the
    width is at least 5000/287 (about 17.4).  The content width of the
    generator is above the largest of the four bounds. *)
Theorem phantom_diagram_small_widths (w : Qc) :
  let shapes :=
    drawing_shapes
      (PhantomEngaged.OverlapDiagram_draw (PhantomEngaged.OverlapDiagram_init w)) in
  let box_x := w / num 2 - w * dec 82 100 / num 2 in
  let engaged_x := box_x + num 20 in
  let unengaged_x := box_x + w * dec 82 100 - num 20 in
  let dash_x := box_x + w * dec 82 100 * dec 72 100 in
  let overlay_w := (box_x + w * dec 82 100 - num 4) - dash_x in
  shapes !! 4%nat =
    Some (SString engaged_x (num 44) "ENGAGED" "Helvetica-Bold" (num 10)
                  PhantomEngaged.DARK_TEXT "start") ∧
  shapes !! 5%nat =
    Some (SString unengaged_x (num 44) "UNENGAGED" "Helvetica-Bold" (num 10)
                  PhantomEngaged.DARK_TEXT "end") ∧
  shapes !! 3%nat =
    Some (SLine dash_x (num 28) dash_x (num 66) PhantomEngaged.LIGHT_TEXT
                (num 1) [num 4; num 3]) ∧
  shapes !! 1%nat =
    Some (SRect dash_x (dec 286 10) overlay_w (dec 368 10) (num 0) (num 0)
                (Some PhantomEngaged.white) None (num 0)) ∧
  (engaged_x ≤ unengaged_x ↔ dec 2000 41 ≤ w) ∧
  (engaged_x ≤ dash_x ↔ dec 12500 369 ≤ w) ∧
  (dash_x ≤ unengaged_x ↔ dec 25000 287 ≤ w) ∧
  (num 0 ≤ overlay_w ↔ dec 5000 287 ≤ w) ∧
  dec 5000 287 ≤ dec 12500 369 ∧ dec 12500 369 ≤ dec 2000 41 ∧
  dec 2000 41 ≤ dec 25000 287 ∧ dec 25000 287 ≤ PhantomEngaged.avail_w.
Proof.
  cbv zeta. unfold PhantomEngaged.OverlapDiagram_draw,
    PhantomEngaged.OverlapDiagram_init.
  cbn [od_width od_height drawing_shapes flat_map dr_shapes app lookup
       list_lookup].
  split; [do 2 f_equal; qc_arith|].
  split; [do 2 f_equal; qc_arith|].
  split; [do 2 f_equal; qc_arith|].
  split; [do 2 f_equal; qc_arith|].
  split; [split; intros Hw; qc_lra|].
  split; [split; intros Hw; qc_lra|].
  split; [split; intros Hw; qc_lra|].
  split; [split; intros Hw; qc_lra|].
  split; [qc_lra|]. split; [qc_lra|]. split; [qc_lra|].
  unfold PhantomEngaged.avail_w, PhantomEngaged.margin. qc_lra.
Qed.

(** ** The generator and the merge tool side by side *)

(** X8.  The footer that [insert_callouts.py] draws on an inserted page
    with page number [n] is, event for event, the footer that
    [generate_phantom_engaged.py] draws on the content page whose counter is
    [n + 1]: the two inserted pages, numbered 3 and 8, repeat the chrome of
    the generated pages with counters 4 and 9. *)
Theorem inserted_footer_matches_generator (n : Z) :
  InsertCallouts.draw_footer n = PhantomEngaged.ContentPage_draw (n + 1) ∧
  printed (InsertCallouts.draw_footer 3)
    = printed (PhantomEngaged.ContentPage_draw 4) ∧
  printed (InsertCallouts.draw_footer 8)
    = printed (PhantomEngaged.ContentPage_draw 9).
Proof.
  split; [|split; reflexivity].
  unfold InsertCallouts.draw_footer, PhantomEngaged.ContentPage_draw.
  replace (n + 1 - 1)%Z with n by lia. reflexivity.
Qed.

(** X9.  All three tools take the link from the first command-line
    argument and fall back to the same default when there is none; given the
    same arguments, the merge tool writes the same two link markups as the
    generator, and the Approach-A callout it puts on the inserted page is
    the callout the generator lays out in place. *)
Theorem inserted_callout_matches_generator
    (wrap : Wrapper) (hexval : string -> string)
    (env : InsertCallouts.Env) (fs : FS) :
  let args := InsertCallouts.argv env in
  let url := InsertCallouts.TOOL_URL (InsertCallouts.load_config env fs) in
  url = default "https://expert.email/classify" (args !! 1%nat) ∧
  PhantomEngaged.TOOL_URL args = url ∧
  WhitepaperFull.TOOL_URL args = url ∧
  InsertCallouts.approach_a_text hexval url
    = PhantomEngaged.approach_a_text args hexval ∧
  InsertCallouts.approach_c_text hexval url
    = PhantomEngaged.approach_c_text args hexval ∧
  InsertCallouts.create_approach_a wrap hexval url (W - inch * dec 17 10) !! 1%nat
    = PhantomEngaged.story args wrap hexval !! 51%nat.
Proof.
  cbv zeta.
  assert (InsertCallouts.TOOL_URL (InsertCallouts.load_config env fs)
          = PhantomEngaged.TOOL_URL (InsertCallouts.argv env)) as Hurl.
  { unfold InsertCallouts.load_config. by destruct (negb _). }
  rewrite Hurl. split; [|split; [reflexivity|split; [reflexivity|]]].
  { unfold PhantomEngaged.TOOL_URL. case_bool_decide as Hlen.
    - destruct (InsertCallouts.argv env !! 1%nat) eqn:Harg; [done|].
      apply lookup_ge_None in Harg. lia.
    - rewrite lookup_ge_None_2; [done | lia]. }
  split; [reflexivity|]. split; [reflexivity|].
  assert (W - inch * dec 17 10 = PhantomEngaged.avail_w) as -> by
    (unfold PhantomEngaged.avail_w, PhantomEngaged.margin; qc_arith).
  reflexivity.
Qed.

(** ** insert_callouts.py: which files a run touches *)

Lemma str_length_app s t :
  String.length (s +:+ t) = (String.length s + String.length t)%nat.
Proof. induction s as [|a s IH]; simpl; [done | by rewrite IH]. Qed.

Lemma str_app_assoc a b c : (a +:+ b) +:+ c = a +:+ (b +:+ c).
Proof.
  induction a as [|x a IH]; [done|].
  change (String x ((a +:+ b) +:+ c) = String x (a +:+ (b +:+ c))).
  by rewrite IH.
Qed.

Lemma str_app_tail x y t1 t2 :
  String.length t1 = String.length t2 → x +:+ t1 = y +:+ t2 → t1 = t2.
Proof.
  revert y. induction x as [|a x IH]; intros [|b y] Hlen Heq.
  - exact Heq.
  - change (t1 = String b (y +:+ t2)) in Heq. subst t1.
    cbn [String.length] in Hlen. rewrite str_length_app in Hlen. lia.
  - change (String a (x +:+ t1) = t2) in Heq. subst t2.
    cbn [String.length] in Hlen. rewrite str_length_app in Hlen. lia.
  - change (String a (x +:+ t1) = String b (y +:+ t2)) in Heq.
    injection Heq as _ Heq. by eapply IH.
Qed.

Lemma ends_with_v4_v5 s : ends_with "4.pdf" s → ends_with "5.pdf" s → False.
Proof.
  intros [x ->] [y Heq]. by apply str_app_tail in Heq.
Qed.

Lemma path_join_ends tail dir rel :
  ends_with tail rel → ends_with tail (InsertCallouts.path_join dir rel).
Proof.
  intros [x ->]. exists (dir +:+ "/" +:+ x). unfold InsertCallouts.path_join.
  by rewrite !str_app_assoc.
Qed.

Lemma resolve_ends tail cwd0 path :
  ends_with tail path → ends_with tail (InsertCallouts.resolve cwd0 path).
Proof.
  intros Hp. unfold InsertCallouts.resolve.
  destruct (String.prefix "/" path); [done | by apply path_join_ends].
Qed.

Lemma source_path_ends env fs :
  ends_with "4.pdf"
    (InsertCallouts.ORIG_PDF (InsertCallouts.load_config env fs)) ∧
  ends_with "5.pdf"
    (InsertCallouts.OUTPUT (InsertCallouts.load_config env fs)) ∧
  ends_with "4.pdf" (InsertCallouts.configured_ORIG_PDF env).
Proof.
  assert (ends_with "4.pdf" (InsertCallouts.configured_ORIG_PDF env)) as Hc
    by (apply path_join_ends;
        by exists "mnt/PhantomEngaged_Lander/Phantom_Engaged_v").
  unfold InsertCallouts.load_config. destruct (negb _); simpl.
  - split; [by exists "Phantom_Engaged_v"|].
    split; [by exists "Phantom_Engaged_v" | done].
  - split; [done|]. split; [|done].
    apply path_join_ends. by exists "mnt/PhantomEngaged_Lander/Phantom_Engaged_v".
Qed.

Lemma output_is_not_a_source env fs :
  let out := InsertCallouts.resolve (InsertCallouts.cwd env)
               (InsertCallouts.OUTPUT (InsertCallouts.load_config env fs)) in
  out ≠ InsertCallouts.resolve (InsertCallouts.cwd env)
          (InsertCallouts.ORIG_PDF (InsertCallouts.load_config env fs)) ∧
  out ≠ InsertCallouts.resolve (InsertCallouts.cwd env)
          (InsertCallouts.configured_ORIG_PDF env).
Proof.
  destruct (source_path_ends env fs) as (Ho & Hw & Hc).
  split; intros Heq;
    apply (ends_with_v4_v5
             (InsertCallouts.resolve (InsertCallouts.cwd env)
                (InsertCallouts.OUTPUT (InsertCallouts.load_config env fs))));
    try (by apply resolve_ends); rewrite Heq; by apply resolve_ends.
Qed.

Section MergeFiles.
Variable wrap : Wrapper.
Variable table_height : list (list Paragraph) -> list Qc -> Qc.
Variable hexval : string -> string.

Lemma build_unfold env fs :
  InsertCallouts.build wrap table_height hexval env fs =
  match merge_pages wrap table_height hexval env fs with
  | Err e => (Err e, fs)
  | Ok writer_pages =>
      (Ok [ nl +:+ "  Generated: " +:+
              InsertCallouts.OUTPUT (InsertCallouts.load_config env fs);
            "  URL: " +:+
              InsertCallouts.TOOL_URL (InsertCallouts.load_config env fs);
            "  Original pages preserved. Two callout pages inserted." +:+ nl ],
       <[InsertCallouts.resolve (InsertCallouts.cwd env)
           (InsertCallouts.OUTPUT (InsertCallouts.load_config env fs))
         := writer_pages]> fs)
  end.
Proof. reflexivity. Qed.

Lemma load_config_insert env fs path pages :
  path ≠ InsertCallouts.resolve (InsertCallouts.cwd env)
           (InsertCallouts.configured_ORIG_PDF env) →
  InsertCallouts.load_config env (<[path := pages]> fs)
  = InsertCallouts.load_config env fs.
Proof.
  intros Hne. unfold InsertCallouts.load_config, InsertCallouts.path_exists.
  by rewrite lookup_insert_ne.
Qed.

(** X10.  A run of the merge changes no file but its output: the source
    document is never the output, so it holds after the run what it held
    before, whether the run succeeds or stops with an error, and so does
    every other path. *)
Theorem merge_leaves_other_files env fs :
  let cfg := InsertCallouts.load_config env fs in
  let src := InsertCallouts.resolve (InsertCallouts.cwd env)
               (InsertCallouts.ORIG_PDF cfg) in
  let out := InsertCallouts.resolve (InsertCallouts.cwd env)
               (InsertCallouts.OUTPUT cfg) in
  src ≠ out ∧
  snd (InsertCallouts.build wrap table_height hexval env fs) !! src = fs !! src ∧
  (∀ path, path ≠ out →
     snd (InsertCallouts.build wrap table_height hexval env fs) !! path
     = fs !! path).
Proof.
  cbv zeta. destruct (output_is_not_a_source env fs) as (Hsrc & _).
  assert (∀ path,
            path ≠ InsertCallouts.resolve (InsertCallouts.cwd env)
                     (InsertCallouts.OUTPUT (InsertCallouts.load_config env fs)) →
            snd (InsertCallouts.build wrap table_height hexval env fs) !! path
            = fs !! path) as Hother.
  { intros path Hne. rewrite build_unfold.
    destruct (merge_pages wrap table_height hexval env fs); simpl; [|done].
    by rewrite lookup_insert_ne. }
  split; [done|]. split; [by apply Hother | exact Hother].
Qed.

(** X11.  The merge can be run again: a second run on the files the first
    run left reads the same source, prints the same and writes the same
    output, so the file system does not change a second time. *)
Theorem merge_run_twice env fs :
  InsertCallouts.build wrap table_height hexval env
    (snd (InsertCallouts.build wrap table_height hexval env fs))
  = InsertCallouts.build wrap table_height hexval env fs.
Proof.
  destruct (output_is_not_a_source env fs) as (Hsrc & Hconf).
  rewrite (build_unfold env fs).
  destruct (merge_pages wrap table_height hexval env fs) as [w | e] eqn:Hm;
    cbn [snd].
  - rewrite build_unfold.
    assert (merge_pages wrap table_height hexval env
              (<[InsertCallouts.resolve (InsertCallouts.cwd env)
                   (InsertCallouts.OUTPUT (InsertCallouts.load_config env fs))
                 := w]> fs) = Ok w) as ->.
    { rewrite <- Hm. unfold merge_pages.
      rewrite load_config_insert by done.
      by rewrite lookup_insert_ne. }
    rewrite load_config_insert by done.
    by rewrite insert_insert_eq.
  - rewrite build_unfold. by rewrite Hm.
Qed.

(** X12.  A source at the configured place is preferred: when it exists,
    the run reads it and writes the output beside it, whatever the working
    directory holds. *)
Theorem merge_prefers_configured_source env fs pages :
  fs !! InsertCallouts.resolve (InsertCallouts.cwd env)
          (InsertCallouts.configured_ORIG_PDF env) = Some pages →
  InsertCallouts.ORIG_PDF (InsertCallouts.load_config env fs)
    = InsertCallouts.configured_ORIG_PDF env ∧
  InsertCallouts.OUTPUT (InsertCallouts.load_config env fs)
    = InsertCallouts.configured_OUTPUT env ∧
  ∃ a c msgs,
    InsertCallouts.build wrap table_height hexval env fs =
      (Ok msgs,
       <[InsertCallouts.resolve (InsertCallouts.cwd env)
           (InsertCallouts.configured_OUTPUT env)
         := merge_output pages (BuiltPage a) (BuiltPage c)]> fs).
Proof.
  intros Hsrc.
  assert (InsertCallouts.load_config env fs =
          {| InsertCallouts.TOOL_URL :=
               InsertCallouts.TOOL_URL (InsertCallouts.load_config env fs);
             InsertCallouts.ORIG_PDF := InsertCallouts.configured_ORIG_PDF env;
             InsertCallouts.OUTPUT := InsertCallouts.configured_OUTPUT env |})
    as Hcfg.
  { unfold InsertCallouts.load_config, InsertCallouts.path_exists.
    rewrite Hsrc. by rewrite bool_decide_eq_true_2. }
  assert (InsertCallouts.ORIG_PDF (InsertCallouts.load_config env fs)
          = InsertCallouts.configured_ORIG_PDF env) as Ho by (by rewrite Hcfg).
  assert (InsertCallouts.OUTPUT (InsertCallouts.load_config env fs)
          = InsertCallouts.configured_OUTPUT env) as Hw by (by rewrite Hcfg).
  split; [exact Ho|]. split; [exact Hw|].
  destruct (build_found wrap table_height hexval env fs pages)
    as (a & c & msgs & Hb & _); [by rewrite Ho|].
  rewrite Hw in Hb. eauto.
Qed.

End MergeFiles.

Lemma merge_prefers_configured_source_witness :
  ∃ msgs out,
    InsertCallouts.build sample_wrap sample_table_height sample_hexval
      sample_env sample_fs_both
    = (Ok msgs,
       <["/opt/lander/mnt/PhantomEngaged_Lander/Phantom_Engaged_v5.pdf" := out]>
         sample_fs_both) ∧
    length out = 11%nat.
Proof.
  destruct (merge_prefers_configured_source sample_wrap sample_table_height
              sample_hexval sample_env sample_fs_both (source_pages 9) eq_refl)
    as (_ & _ & a & c & msgs & Hb).
  exists msgs, (merge_output (source_pages 9) (BuiltPage a) (BuiltPage c)).
  split; [exact Hb | reflexivity].
Defined.

(** ** insert_callouts.py: the pages it builds *)

Lemma engine_build_pages wrap table_height t0 tpls story :
  forallb marker_free story = true →
  ∃ pages,
    engine_build wrap table_height (t0 :: tpls) story = Ok pages ∧
    pages ≠ [] ∧
    ∀ i r, pages !! i = Some r →
      pr_number r = (Z.of_nat i + 1)%Z ∧ pr_template r = pt_id t0 ∧
      pr_chrome r = onPage t0 (pr_number r).
Proof.
  intros Hs. unfold engine_build.
  assert (steady t0 [] (engine_start t0)) as H0.
  { split; [reflexivity|]. split; [reflexivity|]. exists [].
    split; [reflexivity|]. split; [reflexivity|]. intros i r Hi. done. }
  destruct (steady_story wrap table_height (t0 :: tpls) t0 [] story _ Hs H0)
    as (e' & -> & He').
  cbn [rbind]. apply steady_end_page in He'.
  destruct He' as (_ & _ & rest & Hf & Hn & Hall).
  exists rest. rewrite Hf. split; [reflexivity|]. split.
  - intros ->. simpl in Hf. by destruct (finished e').
  - intros i r Hi. destruct (Hall i r Hi) as (Hnum & Htpl & _ & Hch).
    simpl in Hnum. done.
Qed.

(** X14.  A callout document built from a story without template markers
    has at least one page, so taking its first page never fails, and every
    one of its pages carries the footer of the page number handed in: the
    number printed does not depend on the page counter of the build. *)
Theorem callout_page_footer
    (wrap : Wrapper) (table_height : list (list Paragraph) -> list Qc -> Qc)
    (story_items : list StoryItem) (page_num : Z) :
  forallb marker_free story_items = true →
  ∃ first rest,
    InsertCallouts.make_callout_page wrap table_height story_items page_num
      = Ok (first :: rest) ∧
    InsertCallouts.first_page (first :: rest) = Ok first ∧
    ∀ pg, pg ∈ first :: rest →
      ∃ r, pg = BuiltPage r ∧ pr_chrome r = InsertCallouts.draw_footer page_num.
Proof.
  intros Hs. unfold InsertCallouts.make_callout_page.
  match goal with |- context [engine_build _ _ (?t0 :: ?tpls) _] =>
    destruct (engine_build_pages wrap table_height t0 tpls story_items Hs)
      as (pages & -> & Hne & Hall) end.
  cbn [rbind]. destruct pages as [|r0 pages]; [done|].
  exists (BuiltPage r0), (map BuiltPage pages).
  split; [reflexivity|]. split; [reflexivity|].
  intros pg Hpg. change (pg ∈ map BuiltPage (r0 :: pages)) in Hpg.
  apply list_elem_of_fmap in Hpg as (r & -> & Hr).
  apply list_elem_of_lookup in Hr as (i & Hi).
  exists r. split; [reflexivity|]. by destruct (Hall i r Hi) as (_ & _ & ->).
Qed.

Lemma callout_page_footer_witness :
  ∃ first rest,
    InsertCallouts.make_callout_page sample_wrap sample_table_height
      (InsertCallouts.create_approach_c sample_hexval sample_url
         (W - inch * dec 17 10)) 8
    = Ok (first :: rest).
Proof.
  destruct (callout_page_footer sample_wrap sample_table_height
              (InsertCallouts.create_approach_c sample_hexval sample_url
                 (W - inch * dec 17 10)) 8 eq_refl)
    as (first & rest & Hb & _).
  exists first, rest. exact Hb.
Defined.
